(** * Round coordination of the distributed learning simulator

    A shallow embedding of the coordination code of the simulator:
    - [topology/cs_endpoint.py]  (server and client endpoints),
    - [worker/fed_avg_worker.py] and [worker/fed_dropout_avg_worker.py],
    - [server/multiround_shapley_value_server.py],
    - [training.py]              (task orchestration).

    Python dictionaries are finite maps ([gmap]) or, where the order of
    the entries matters, association lists; Python sets are finite sets
    ([gset]); exceptions are explicit outcomes; every object that the
    code mutates is threaded through as a state. *)

From Stdlib Require Import ZArith QArith.
From stdpp Require Import gmap strings list fin_maps fin_sets sorting.

Local Open Scope Z_scope.

(* ===================================================================== *)
(** ** Exceptions and the state-and-exception monad *)
(* ===================================================================== *)

(** The exceptions the modelled code raises.  [StopExecutingException] is
    the control-flow signal of [cyy_torch_toolbox]. *)
Inductive exn :=
| StopExecutingException
| KeyError
| AssertionError
| RuntimeError
| AttributeError
| TypeError.

(** What a call does: it returns, it raises, or it waits for a message
    that the channel never delivers. *)
Inductive outcome (A : Type) :=
| Return (a : A)
| Raise (e : exn)
| Blocked.
Arguments Return {A} a.
Arguments Raise {A} e.
Arguments Blocked {A}.

(** A computation over a mutable state [S].  The state reached when an
    exception is raised is kept: assignments made before a [raise] stay. *)
Definition M (S A : Type) : Type := S → outcome A * S.

Definition ret {S A} (a : A) : M S A := λ s, (Return a, s).

Definition raise {S A} (e : exn) : M S A := λ s, (Raise e, s).

Definition block {S A} : M S A := λ s, (Blocked, s).

Definition bind {S A B} (m : M S A) (f : A → M S B) : M S B :=
  λ s, match m s with
       | (Return a, s') => f a s'
       | (Raise e, s') => (Raise e, s')
       | (Blocked, s') => (Blocked, s')
       end.

Definition get {S} : M S S := λ s, (Return s, s).

Definition modify {S} (f : S → S) : M S unit := λ s, (Return tt, f s).

(** Lifting a pure lookup that raises when the key is missing. *)
Definition or_raise {S A} (e : exn) (o : option A) : M S A :=
  match o with Some a => ret a | None => raise e end.

(** Running a call that reads the state but does not change it. *)
Definition lift {S A} (o : outcome A) : M S A := λ s, (o, s).

Notation "'let*' x ':=' m 'in' k" := (bind m (λ x, k))
  (at level 10, x name, m at level 100, k at level 200, only parsing).
Notation "'let*' ' p ':=' m 'in' k" := (bind m (λ p, k))
  (at level 10, p pattern, m at level 100, k at level 200, only parsing).

(* ===================================================================== *)
(** ** Topology and endpoints ([topology/cs_endpoint.py]) *)
(* ===================================================================== *)

Module CentralTopology.
Section Topology.
Context {Data : Type}.

(** Modelled from the spec: [central_topology.py] is not part of the
    sources at hand.  The spec describes a topology with a fixed
    [worker_num] that owns one FIFO channel per worker and direction and
    routes by worker identifier.  A channel is the list of the messages
    put on it, oldest first.  [calls] records every [send_to_worker]
    call in the order the calls are made. *)
Record t := mk {
  worker_num : Z;
  to_worker : gmap Z (list Data);
  to_server : gmap Z (list Data);
  calls : list (Z * Data)
}.

Definition mailbox (topo : t) (worker_id : Z) : list Data :=
  default [] (to_worker topo !! worker_id).

Definition send_to_worker (data : Data) (worker_id : Z) (topo : t) : t :=
  {| worker_num := worker_num topo;
     to_worker := <[worker_id := mailbox topo worker_id ++ [data]]> (to_worker topo);
     to_server := to_server topo;
     calls := calls topo ++ [(worker_id, data)] |}.

(** How many [send_to_worker] calls were addressed to [worker_id]. *)
Definition sends_to (topo : t) (worker_id : Z) : nat :=
  length (filter (λ c, c.1 = worker_id) (calls topo)).

End Topology.
Arguments t : clear implicits.
End CentralTopology.

Module ServerEndpoint.
Section Endpoint.
Context {Data : Type}.

(** [worker_num]: the property reads the topology's worker count. *)
Definition worker_num (ep : CentralTopology.t Data) : Z :=
  CentralTopology.worker_num ep.

(** [send(data, worker_id)] *)
Definition send (data : Data) (worker_id : Z) (ep : CentralTopology.t Data)
    : CentralTopology.t Data :=
  CentralTopology.send_to_worker data worker_id ep.

(** [set(range(self.worker_num))]; [range] of a non-positive count is
    empty, as [seqZ] is. *)
Definition all_worker_ids (ep : CentralTopology.t Data) : gset Z :=
  list_to_set (seqZ 0 (worker_num ep)).

(** The worker ids a broadcast iterates over.  [worker_ids] is [None],
    or a list or set given as the list of its elements. *)
Definition addressed (worker_ids : option (list Z)) (ep : CentralTopology.t Data)
    : gset Z :=
  match worker_ids with
  | None => all_worker_ids ep
  | Some ids => list_to_set ids ∩ all_worker_ids ep
  end.

(** [broadcast(data, worker_ids=None)]: one [send] per element of the
    set.  Python iterates a set in an order that depends on how the set
    was built; the model iterates in the order of [elements], which the
    content of the set fixes.  The statements about a broadcast are
    therefore made per worker or up to the order of the sends. *)
Definition broadcast (data : Data) (worker_ids : option (list Z))
    (ep : CentralTopology.t Data) : CentralTopology.t Data :=
  foldl (λ ep' worker_id, send data worker_id ep') ep
        (elements (addressed worker_ids ep)).

End Endpoint.
End ServerEndpoint.

(* ===================================================================== *)
(** ** Parameters and messages *)
(* ===================================================================== *)

(** A tensor is the list of its elements; the elements are rationals
    (floating-point rounding is not modelled). *)
Definition tensor : Type := list Q.

(** A parameter dictionary: an ordered mapping from parameter names to
    tensors, in the order of the entries of the Python dict. *)
Definition ParameterDict : Type := list (string * tensor).

Definition tensor_sub (a b : tensor) : tensor := zip_with Qminus a b.

Definition tensor_mul (a b : tensor) : tensor := zip_with Qmult a b.

(** The values stored in the message dictionaries. *)
Inductive value :=
| VParameter (p : ParameterDict)
| VInt (n : Z)
| VBool (b : bool).

(** A message is a Python dict with string keys; a worker that skips a
    round sends [None], the server's skip signal is [None] too. *)
Abbreviation message := (gmap string value).

(* ===================================================================== *)
(** ** The worker ([worker/fed_avg_worker.py]) *)
(* ===================================================================== *)

(** What a worker did, for the statements about the order of its
    actions: it applied a parameter result while its round counter had
    the given value, or it set its stop flag. *)
Inductive event :=
| Applied (round : Z) (p : ParameterDict)
| Stopped.

Module Worker.

(** The attributes of a worker object that the modelled methods read or
    write.  The client endpoint is the worker's view of the topology: the
    channel from the server ([from_server], oldest message first) and the
    messages put on the channel to the server ([to_server]). *)
Record t := mk {
  round_num : Z;                      (* self._round_num *)
  stopped : bool;                     (* self.__stopped *)
  send_parameter_diff : bool;         (* self._send_parameter_diff *)
  dropout_rate : Q;                   (* self.__dropout_rate *)
  dataset_size : Z;                   (* self.trainer.dataset_size *)
  trainer_parameter : ParameterDict;  (* trainer.model_util.get_parameter_dict() *)
  cached_parameter_dict : ParameterDict;
  from_server : list (option message);
  to_server : list (option message);
  rng : nat;                          (* draws taken from the random generator *)
  history : list event
}.

Definition set_round_num (x : Z) (w : t) : t :=
  mk x (stopped w) (send_parameter_diff w) (dropout_rate w) (dataset_size w)
     (trainer_parameter w) (cached_parameter_dict w) (from_server w)
     (to_server w) (rng w) (history w).

Definition set_stopped (x : bool) (w : t) : t :=
  mk (round_num w) x (send_parameter_diff w) (dropout_rate w) (dataset_size w)
     (trainer_parameter w) (cached_parameter_dict w) (from_server w)
     (to_server w) (rng w) (history w).

Definition set_send_parameter_diff (x : bool) (w : t) : t :=
  mk (round_num w) (stopped w) x (dropout_rate w) (dataset_size w)
     (trainer_parameter w) (cached_parameter_dict w) (from_server w)
     (to_server w) (rng w) (history w).

Definition set_trainer_parameter (x : ParameterDict) (w : t) : t :=
  mk (round_num w) (stopped w) (send_parameter_diff w) (dropout_rate w)
     (dataset_size w) x (cached_parameter_dict w) (from_server w)
     (to_server w) (rng w) (history w).

Definition set_cached_parameter_dict (x : ParameterDict) (w : t) : t :=
  mk (round_num w) (stopped w) (send_parameter_diff w) (dropout_rate w)
     (dataset_size w) (trainer_parameter w) x (from_server w)
     (to_server w) (rng w) (history w).

Definition set_from_server (x : list (option message)) (w : t) : t :=
  mk (round_num w) (stopped w) (send_parameter_diff w) (dropout_rate w)
     (dataset_size w) (trainer_parameter w) (cached_parameter_dict w) x
     (to_server w) (rng w) (history w).

Definition set_to_server (x : list (option message)) (w : t) : t :=
  mk (round_num w) (stopped w) (send_parameter_diff w) (dropout_rate w)
     (dataset_size w) (trainer_parameter w) (cached_parameter_dict w)
     (from_server w) x (rng w) (history w).

Definition set_rng (x : nat) (w : t) : t :=
  mk (round_num w) (stopped w) (send_parameter_diff w) (dropout_rate w)
     (dataset_size w) (trainer_parameter w) (cached_parameter_dict w)
     (from_server w) (to_server w) x (history w).

Definition set_history (x : list event) (w : t) : t :=
  mk (round_num w) (stopped w) (send_parameter_diff w) (dropout_rate w)
     (dataset_size w) (trainer_parameter w) (cached_parameter_dict w)
     (from_server w) (to_server w) (rng w) x.

Definition record (e : event) : M t unit :=
  modify (λ w, set_history (history w ++ [e]) w).

End Worker.

(** The behaviour a worker inherits from classes and libraries that are
    not part of the sources at hand; the worker code is read against any
    implementation of them.
    - [client_stopped]: [Client._stopped()], the [super()._stopped()] of
      [FedAVGWorker._stopped];
    - [aggregation_get_sent_data]: [AggregationWorker._get_sent_data()],
      the [super()._get_sent_data()] of [FedAVGWorker._get_sent_data];
    - [torch_bernoulli p i]: the [i]-th draw of [torch.bernoulli] with
      probability [p] for a one ([true]). *)
Class Inherited := {
  client_stopped : Worker.t → bool;
  aggregation_get_sent_data : Worker.t → message;
  torch_bernoulli : Q → nat → bool
}.

Module ModelCache.

(** Modelled from the spec: [util/model_cache.py] is missing.  The spec
    has the cache hold the previous global parameters and the diff be
    the elementwise difference between the updated parameters and the
    cached ones, over the same key set.  A key of the new parameters that
    the cache does not hold is a [KeyError]. *)
Fixpoint get_parameter_diff_from (cached new_parameter_dict : ParameterDict)
    : option ParameterDict :=
  match new_parameter_dict with
  | [] => Some []
  | (k, v) :: rest =>
      match list_find (λ kv, kv.1 = k) cached, get_parameter_diff_from cached rest with
      | Some (_, (_, c)), Some rest' => Some ((k, tensor_sub v c) :: rest')
      | _, _ => None
      end
  end.

Definition get_parameter_diff (new_parameter_dict : ParameterDict)
    : M Worker.t ParameterDict :=
  let* w := get in
  or_raise KeyError
    (get_parameter_diff_from (Worker.cached_parameter_dict w) new_parameter_dict).

(** Modelled from the spec: the cache keeps the parameters it is given. *)
Definition cache_parameter_dict (p : ParameterDict) : M Worker.t unit :=
  modify (Worker.set_cached_parameter_dict p).

End ModelCache.

Module Client.

(** Modelled from the spec: [worker/client.py] is missing.  Sending puts
    the data on the channel to the server ([ClientEndpoint.send]). *)
Definition send_data_to_server (data : option message) : M Worker.t unit :=
  modify (λ w, Worker.set_to_server (Worker.to_server w ++ [data]) w).

(** Modelled from the spec: the worker blocks for the server's broadcast
    and takes the oldest message of its channel ([ClientEndpoint.get]). *)
Definition get_result_from_server : M Worker.t (option message) :=
  λ w, match Worker.from_server w with
       | [] => (Blocked, w)
       | result :: rest => (Return result, Worker.set_from_server rest w)
       end.

(** Modelled from the spec: a received result is applied as the new
    baseline parameter set of the local trainer. *)
Definition _load_parameters (p : ParameterDict) : M Worker.t unit :=
  let* w := get in
  let* _ := Worker.record (Applied (Worker.round_num w) p) in
  modify (Worker.set_trainer_parameter p).

End Client.

Module FedAVGWorker.
Section Methods.
Context `{Inherited}.

(** [_stopped]: [super()._stopped() or self.__stopped] *)
Definition _stopped (w : Worker.t) : bool :=
  client_stopped w || Worker.stopped w.

(** [load_result_from_server(result)] *)
Definition load_result_from_server (result : message) : M Worker.t unit :=
  if decide (is_Some (result !! "end_training")) then
    let* _ := modify (Worker.set_stopped true) in
    let* _ := Worker.record Stopped in
    raise StopExecutingException
  else
    let* v := or_raise KeyError (result !! "parameter") in
    match v with
    | VParameter p =>
        let* _ := Client._load_parameters p in
        let* w := get in
        ModelCache.cache_parameter_dict (Worker.trainer_parameter w)
    | _ => raise TypeError
    end.

(** The [while True] loop of [get_result_from_server].  Every iteration
    takes one message off the channel, so the loop is a recursion on the
    messages still to arrive; [msgs] is the content of the channel.  On
    an empty channel the worker stays blocked in
    [super().get_result_from_server()]. *)
Fixpoint get_result_loop (msgs : list (option message)) : M Worker.t unit :=
  match msgs with
  | [] => block
  | result :: rest =>
      let* _ := modify (Worker.set_from_server rest) in
      match result with
      | None =>
          let* _ := modify (λ w, Worker.set_round_num (Worker.round_num w + 1) w) in
          let* _ := Client.send_data_to_server None in
          let* w := get in
          if _stopped w then ret tt else get_result_loop rest
      | Some result => load_result_from_server result
      end
  end.

(** [get_result_from_server()] *)
Definition get_result_from_server : M Worker.t unit :=
  λ w, get_result_loop (Worker.from_server w) w.

(** [_aggretation(sent_data)] *)
Definition _aggretation (sent_data : message) : M Worker.t unit :=
  let* w := get in
  let* sent_data :=
    (if Worker.send_parameter_diff w then
       let* v := or_raise KeyError (sent_data !! "parameter") in
       match v with
       | VParameter parameter_data =>
           let* parameter_diff := ModelCache.get_parameter_diff parameter_data in
           ret (<["parameter_diff" := VParameter parameter_diff]>
                  (delete "parameter" sent_data))
       | _ => raise TypeError
       end
     else ret sent_data) in
  let* _ := Client.send_data_to_server (Some sent_data) in
  get_result_from_server.

(** [_get_sent_data()] *)
Definition _get_sent_data : M Worker.t message :=
  let* w := get in
  let sent_data := aggregation_get_sent_data w in
  ret (<["dataset_size" := VInt (Worker.dataset_size w)]> sent_data).

End Methods.
End FedAVGWorker.

(* ===================================================================== *)
(** ** The dropout worker ([worker/fed_dropout_avg_worker.py]) *)
(* ===================================================================== *)

Module FedDropoutAvgWorker.
Section Methods.
Context `{Inherited}.

(** [torch.bernoulli(torch.full_like(v, 1 - rate))]: a tensor of the
    shape of [v] of independent draws, one (keep) or zero (drop), taken
    from position [pos] of the generator on. *)
Definition bernoulli_like (rate : Q) (v : tensor) (pos : nat) : tensor :=
  (λ i, if torch_bernoulli (1 - rate)%Q (pos + i)%nat then 1%Q else 0%Q)
    <$> seq 0 (length v).

(** The loop [for k, v in parameter.items(): parameter[k] = v * weight].
    The assignment replaces the value of an existing key, so the order
    of the entries stays. *)
Fixpoint mask_parameter (rate : Q) (parameter : ParameterDict) (pos : nat)
    : ParameterDict * nat :=
  match parameter with
  | [] => ([], pos)
  | (k, v) :: rest =>
      let weight := bernoulli_like rate v pos in
      let '(rest', pos') := mask_parameter rate rest (pos + length v)%nat in
      ((k, tensor_mul v weight) :: rest', pos')
  end.

(** [_get_sent_data()].  The counters [total_num] and [send_num] are
    only logged and are left out.  [parameter] is the dictionary stored
    in [sent_data], so the masked entries are the ones sent. *)
Definition _get_sent_data : M Worker.t message :=
  let* _ := modify (Worker.set_send_parameter_diff false) in
  let* sent_data := FedAVGWorker._get_sent_data in
  let* v := or_raise KeyError (sent_data !! "parameter") in
  match v with
  | VParameter parameter =>
      let* w := get in
      let '(parameter', pos') :=
        mask_parameter (Worker.dropout_rate w) parameter (Worker.rng w) in
      let* _ := modify (Worker.set_rng pos') in
      ret (<["parameter" := VParameter parameter']> sent_data)
  | _ => raise TypeError
  end.

End Methods.
End FedDropoutAvgWorker.

(* ===================================================================== *)
(** ** The rounds of a worker *)
(* ===================================================================== *)

Module WorkerRun.
Section Rounds.
Context `{Inherited}.

(** Which class the worker object has: it selects [_get_sent_data]. *)
Inductive kind := FedAVG | FedDropoutAvg.

Definition _get_sent_data (c : kind) : M Worker.t message :=
  match c with
  | FedAVG => FedAVGWorker._get_sent_data
  | FedDropoutAvg => FedDropoutAvgWorker._get_sent_data
  end.

(** Modelled from the spec: the aggregation hook of
    [aggregation_worker.py] is missing.  In the Sending state the worker
    builds the outgoing message with [_get_sent_data] and hands it to
    [_aggretation], which sends it and awaits the aggregate. *)
Definition aggregation_hook (c : kind) : M Worker.t unit :=
  let* sent_data := _get_sent_data c in
  FedAVGWorker._aggretation sent_data.

(** Modelled from the spec: the local-trainer loop is an external
    capability.  Each round it produces an updated parameter set
    ([trained]) and runs the aggregation hook; an exception raised by the
    hook, the stop signal included, aborts the remaining rounds. *)
Fixpoint train (c : kind) (trained : list ParameterDict) : M Worker.t unit :=
  match trained with
  | [] => ret tt
  | p :: rest =>
      let* _ := modify (Worker.set_trainer_parameter p) in
      let* _ := aggregation_hook c in
      train c rest
  end.

End Rounds.
End WorkerRun.

(* ===================================================================== *)
(** ** The Shapley-value server
       ([server/multiround_shapley_value_server.py]) *)
(* ===================================================================== *)

(** The data the server has received in a round: worker id to message. *)
Abbreviation worker_data := (gmap Z message).

Module MultiRoundShapleyValue.

(** The attributes of the estimator of [cyy_torch_algorithm] that the
    server reads: the round the estimator is in, the Shapley values per
    round and, per round, the values of the workers of the best subset. *)
Record t := mk {
  worker_number : Z;
  last_round_metric : Q;
  round_number : Z;
  shapley_values : gmap Z (gmap Z Q);
  shapley_values_S : gmap Z (gmap Z Q)
}.

End MultiRoundShapleyValue.

Module Server.

(** The attributes of the server object that the modelled methods use. *)
Record t := mk {
  sv_algorithm : option MultiRoundShapleyValue.t;
  choose_best_subset : bool;
  worker_number : Z;
  cached_parameter_dict : ParameterDict;
  metric_type : string
}.

Definition set_sv_algorithm (x : option MultiRoundShapleyValue.t) (s : t) : t :=
  mk x (choose_best_subset s) (worker_number s) (cached_parameter_dict s)
     (metric_type s).

End Server.

(** What the server takes from code that is not among the sources:
    - [fed_avg_aggregate]: [FedAVGServer._aggregate_worker_data], the
      [super()._aggregate_worker_data] of the Shapley server;
    - [get_metric]: the evaluation of a parameter set, a dictionary of
      metrics;
    - [sv_new worker_number last_round_metric]: the constructor of the
      estimator;
    - [sv_compute f]: [compute()] of the estimator once [f] was given to
      [set_metric_function]; it may call [f] on subsets of worker ids and
      fails when [f] fails.  Both calls update the estimator in place;
      [sv_compute] gives the estimator as a returning [compute()] leaves
      it.  What a failing [compute()] leaves behind is not modelled, and
      no statement is made about the estimator after a failure. *)
Class ServerInherited := {
  fed_avg_aggregate : Server.t → worker_data → outcome ParameterDict;
  get_metric : Server.t → ParameterDict → gmap string Q;
  sv_new : Z → Q → MultiRoundShapleyValue.t;
  sv_compute : (gset Z → outcome Q) → MultiRoundShapleyValue.t
               → outcome MultiRoundShapleyValue.t
}.

Module MultiRoundShapleyValueServer.
Section Methods.
Context `{ServerInherited}.

(** [{k: v for k, v in worker_data.items() if k in subset}] *)
Definition restrict (subset : gset Z) (data : worker_data) : worker_data :=
  filter (λ kv, kv.1 ∈ subset) data.

(** [_get_subset_metric(_, subset, worker_data)] *)
Definition _get_subset_metric (s : Server.t) (subset : gset Z)
    (data : worker_data) : outcome Q :=
  let data := restrict subset data in
  if decide (data = ∅) then Raise AssertionError
  else
    match fed_avg_aggregate s data with
    | Return p =>
        match get_metric s p !! Server.metric_type s with
        | Some q => Return q
        | None => Raise KeyError
        end
    | Raise e => Raise e
    | Blocked => Blocked
    end.

(** The part of [_aggregate_worker_data] before the final call of the
    base aggregation: it returns the worker data handed to that call. *)
Definition final_worker_data (data : worker_data) : M Server.t worker_data :=
  let* s := get in
  let* sv :=
    (match Server.sv_algorithm s with
     | None =>
         let* last_round_metric :=
           or_raise KeyError
             (get_metric s (Server.cached_parameter_dict s) !! Server.metric_type s) in
         let sv := sv_new (Server.worker_number s) last_round_metric in
         let* _ := modify (Server.set_sv_algorithm (Some sv)) in
         ret sv
     | Some sv => ret sv
     end) in
  let* s := get in
  let* sv := lift (sv_compute (λ subset, _get_subset_metric s subset data) sv) in
  let* _ := modify (Server.set_sv_algorithm (Some sv)) in
  if Server.choose_best_subset s then
    let* values :=
      or_raise KeyError
        (MultiRoundShapleyValue.shapley_values_S sv
           !! MultiRoundShapleyValue.round_number sv) in
    let best_subset : gset Z := dom values in
    if decide (best_subset ≠ ∅) then ret (restrict best_subset data)
    else ret data
  else ret data.

(** [_aggregate_worker_data(worker_data)] *)
Definition _aggregate_worker_data (data : worker_data) : M Server.t ParameterDict :=
  let* data := final_worker_data data in
  let* s := get in
  lift (fed_avg_aggregate s data).

End Methods.
End MultiRoundShapleyValueServer.

(* ===================================================================== *)
(** ** Orchestration ([training.py]) *)
(* ===================================================================== *)

(** The entries of a result dictionary: a metric value, or under ["sv"]
    the Shapley table, round to worker id to value. *)
Inductive stat :=
| SMetric (q : Q)
| SShapley (sv : gmap Z (gmap Z Q)).

Abbreviation stats := (gmap string stat).

Module ProcessPool.

(** The process pool of [cyy_torch_toolbox], an external capability:
    [exec] schedules a unit, [wait(timeout)] tells whether all units have
    finished in time, [stop()] returns the results of the units.  How the
    units fare is given with the pool. *)
Record t := mk {
  units : list (Z * bool);          (* process index, server config given *)
  wait : option Q → bool;
  results : list stats
}.

Definition exec (process_idx : Z) (with_server : bool) (pool : t) : t :=
  mk (units pool ++ [(process_idx, with_server)]) (wait pool) (results pool).

End ProcessPool.

Record DistributedTrainingConfig := {
  worker_number : Z;
  log_file : string
}.

(** An entry of the global [tasks] dictionary. *)
Record task := {
  process_pool : ProcessPool.t;
  practitioner_ids : option (gset Z);
  config : DistributedTrainingConfig
}.

(** What [get_worker_config] of the missing [algorithm_factory] returns,
    as far as [train] uses it: the worker configurations per process
    index, in the order of the dictionary, and whether a server
    configuration is present. *)
Record worker_config := {
  worker_map : list (Z * nat);      (* process index, number of workers *)
  server_config : bool
}.

(** The host a task is started on: [sysconf] is the value of
    [os.sysconf("SC_OPEN_MAX")], [None] where [os] has no [sysconf];
    [uuid4] the identifier drawn for a task; [new_pool] the pool that
    [TorchProcessPool(...)] creates. *)
Record host := {
  sysconf : option Z;
  uuid4 : Z;
  get_worker_config : DistributedTrainingConfig → option (gset Z) → worker_config;
  new_pool : ProcessPool.t
}.

(** The actions of the orchestration on its environment. *)
Inductive effect :=
| SetEnviron
| ApplyGlobalConfig
| SetFileHandler
| GetWorkerConfig
| CreateLock
| CreatePool
| Exec (process_idx : Z)
| StopPool.

Module World.

(** The module state: the global [tasks] dictionary, and the actions
    taken so far. *)
Record t := mk {
  tasks : gmap Z task;
  effects : list effect
}.

Definition act (e : effect) : M t unit :=
  modify (λ w, mk (tasks w) (effects w ++ [e])).

Definition set_tasks (f : gmap Z task → gmap Z task) : M t unit :=
  modify (λ w, mk (f (tasks w)) (effects w)).

End World.

Module Training.

(** The loop over [worker_config["worker_map"].items()]: one [exec] per
    process; the server configuration goes to process 0. *)
Fixpoint exec_all (server_config : bool) (worker_map : list (Z * nat))
    (pool : ProcessPool.t) : M World.t ProcessPool.t :=
  match worker_map with
  | [] => ret pool
  | (process_idx, _) :: rest =>
      let with_server := bool_decide (process_idx = 0) && server_config in
      let* _ := World.act (Exec process_idx) in
      exec_all server_config rest (ProcessPool.exec process_idx with_server pool)
  end.

(** [train(config, non_blocking, practitioner_ids)] *)
Definition train (h : host) (cfg : DistributedTrainingConfig)
    (non_blocking : bool) (ids : option (gset Z)) : M World.t (option Z) :=
  let* _ :=
    (match sysconf h with
     | Some value => if bool_decide (value ≤ 1024) then raise RuntimeError else ret tt
     | None => ret tt
     end) in
  let* _ := World.act SetEnviron in
  let* _ := World.act ApplyGlobalConfig in
  let* _ := World.act SetFileHandler in
  let* _ := World.act GetWorkerConfig in
  let wc := get_worker_config h cfg ids in
  let* _ := World.act CreateLock in
  let task_id := if non_blocking then Some (uuid4 h) else None in
  let* _ := World.act CreatePool in
  let* pool := exec_all (server_config wc) (worker_map wc) (new_pool h) in
  if negb non_blocking then
    let* _ := World.act StopPool in
    ret None
  else
    let* _ := World.set_tasks
                (<[uuid4 h := {| process_pool := pool;
                                 practitioner_ids := ids;
                                 config := cfg |}]>) in
    ret task_id.

(** [for result in results: tmp_stats |= result]: later results win. *)
Definition merge_results (results : list stats) : stats :=
  foldl (λ tmp_stats result, result ∪ tmp_stats) ∅ results.

(** [sorted(practitioner_ids)] *)
Definition sorted (ids : gset Z) : list Z := merge_sort Z.le (elements ids).

(** The loop over [zip(sorted(practitioner_ids), range(worker_number))]
    for one round: [sv_dict[round][practitioner_id] = tmp_sv_dict[worker_id]]. *)
Fixpoint remap_round (pairs : list (Z * Z)) (tmp_sv_dict : gmap Z Q)
    (acc : gmap Z Q) : outcome (gmap Z Q) :=
  match pairs with
  | [] => Return acc
  | (practitioner_id, worker_id) :: rest =>
      match tmp_sv_dict !! worker_id with
      | Some v => remap_round rest tmp_sv_dict (<[practitioner_id := v]> acc)
      | None => Raise KeyError
      end
  end.

(** The loop [for round, tmp_sv_dict in v.items()]. *)
Fixpoint remap_rounds (pairs : list (Z * Z)) (items : list (Z * gmap Z Q))
    (sv_dict : gmap Z (gmap Z Q)) : outcome (gmap Z (gmap Z Q)) :=
  match items with
  | [] => Return sv_dict
  | (round, tmp_sv_dict) :: rest =>
      match remap_round pairs tmp_sv_dict ∅ with
      | Return row => remap_rounds pairs rest (<[round := row]> sv_dict)
      | Raise e => Raise e
      | Blocked => Blocked
      end
  end.

(** The loop [for k, v in tmp_stats.items()]. *)
Fixpoint remap_entries (pairs : list (Z * Z)) (items : list (string * stat))
    (acc : stats) : outcome stats :=
  match items with
  | [] => Return acc
  | (k, v) :: rest =>
      if decide (k ≠ "sv") then remap_entries pairs rest (<[k := v]> acc)
      else
        match v with
        | SShapley table =>
            match remap_rounds pairs (map_to_list table) ∅ with
            | Return sv_dict =>
                remap_entries pairs rest (<[k := SShapley sv_dict]> acc)
            | Raise e => Raise e
            | Blocked => Blocked
            end
        | SMetric _ => Raise AttributeError
        end
  end.

(** [get_training_result(task_id, timeout)] *)
Definition get_training_result (task_id : Z) (timeout : option Q)
    : M World.t (option stats) :=
  let* w := get in
  let* task := or_raise KeyError (World.tasks w !! task_id) in
  let pool := process_pool task in
  if negb (ProcessPool.wait pool timeout) then ret None
  else
    let* _ := World.set_tasks (delete task_id) in
    let* _ := World.act StopPool in
    let tmp_stats := merge_results (ProcessPool.results pool) in
    match practitioner_ids task with
    | Some ids =>
        let pairs := zip (sorted ids) (seqZ 0 (worker_number (config task))) in
        let* stats := lift (remap_entries pairs (map_to_list tmp_stats) ∅) in
        ret (Some stats)
    | None => ret (Some tmp_stats)
    end.

End Training.

(* ===================================================================== *)
(** ** Vocabulary of the statements about the orchestration *)
(* ===================================================================== *)

(** The actions of a start up to the scheduling of the units. *)
Definition start_effects (wc : worker_config) : list effect :=
  [SetEnviron; ApplyGlobalConfig; SetFileHandler; GetWorkerConfig;
   CreateLock; CreatePool] ++ (Exec <$> (worker_map wc).*1).

(** The pool after the units of the worker map have been scheduled. *)
Definition scheduled (wc : worker_config) (pool : ProcessPool.t) : ProcessPool.t :=
  foldl (λ p unit_, ProcessPool.exec unit_.1
                      (bool_decide (unit_.1 = 0) && server_config wc) p)
        pool (worker_map wc).

(** The host refuses the start: it has [sysconf] and the limit of open
    files is at most 1024. *)
Definition limit_too_low (h : host) : bool :=
  match sysconf h with
  | Some value => bool_decide (value ≤ 1024)
  | None => false
  end.

(* ===================================================================== *)
(** ** Vocabulary of the statements about workers *)
(* ===================================================================== *)

(** The state of a worker that has handled [k] skip signals while it
    waited: [k] messages taken off its channel, the round counter
    raised [k] times, [k] empty updates sent. *)
Definition skipped (k : nat) (w : Worker.t) : Worker.t :=
  Worker.set_to_server (Worker.to_server w ++ replicate k None)
    (Worker.set_round_num (Worker.round_num w + Z.of_nat k)
       (Worker.set_from_server (drop k (Worker.from_server w)) w)).










(** [weight] is a dropout mask: a tensor of zeros and ones. *)
Definition is_mask (weight : tensor) : Prop :=
  Forall (λ x, x = 0%Q ∨ x = 1%Q) weight.

(** [sent] is [trained] with every tensor multiplied elementwise by a
    mask of its own: same keys, same order. *)
Definition masked_of (trained sent : ParameterDict) : Prop :=
  Forall2 (λ kv kv', kv.1 = kv'.1 ∧
             ∃ weight, is_mask weight ∧ length weight = length kv.2
                       ∧ kv'.2 = tensor_mul kv.2 weight)
          trained sent.

(** The reading under which a message carries a masked parameter diff:
    some payload of the message has the keys of the diff between the
    cached and the trained parameters (in either direction), and each of
    its elements is the element of the diff or zero. *)
Definition zeroed_of (d s : ParameterDict) : Prop :=
  Forall2 (λ kv kv', kv.1 = kv'.1 ∧
             Forall2 (λ x y, Qeq y x ∨ Qeq y 0) kv.2 kv'.2) d s.

Definition carries_masked_diff (cached trained : ParameterDict) (msg : message)
    : Prop :=
  ∃ d s,
    (ModelCache.get_parameter_diff_from cached trained = Some d
     ∨ ModelCache.get_parameter_diff_from trained cached = Some d)
    ∧ (msg !! "parameter_diff" = Some (VParameter s)
       ∨ msg !! "parameter" = Some (VParameter s))
    ∧ zeroed_of d s.

(* ===================================================================== *)
(** ** Sample workers *)
(* ===================================================================== *)

Module Samples.

(** A stand-in for the inherited behaviour: the base class stops a
    worker once its round counter has passed 100 rounds, the base message
    holds the trained parameters, and the generator alternates keep and
    drop, starting with keep. *)
Definition inherited : Inherited :=
  {| client_stopped := λ w, 100 <? Worker.round_num w;
     aggregation_get_sent_data :=
       λ w, {["parameter" := VParameter (Worker.trainer_parameter w)]};
     torch_bernoulli := λ _ i, Nat.even i |}.

Definition parameter_result (p : ParameterDict) : message :=
  {["parameter" := VParameter p]}.

Definition end_training : message := {["end_training" := VBool true]}.

(** A worker in round 1 that has trained [w = (3, 5)] from the cached
    global parameters [w = (1, 1)], with the given messages on its
    channel from the server. *)
Definition worker (channel : list (option message)) : Worker.t :=
  {| Worker.round_num := 1;
     Worker.stopped := false;
     Worker.send_parameter_diff := true;
     Worker.dropout_rate := (1 # 2)%Q;
     Worker.dataset_size := 10;
     Worker.trainer_parameter := [("w", [3%Q; 5%Q])];
     Worker.cached_parameter_dict := [("w", [1%Q; 1%Q])];
     Worker.from_server := channel;
     Worker.to_server := [];
     Worker.rng := 0;
     Worker.history := [] |}.

(** A stand-in for what the server inherits: the base aggregation
    yields one parameter that counts the aggregated workers, the metric
    of a parameter set is that count, and the estimator, which starts in
    round 0, moves to the next round, scores the subset of the workers 0
    and 2 and records it as the best subset of the round. *)
Definition server_inherited : ServerInherited :=
  {| fed_avg_aggregate :=
       λ _ data, Return [("w", [inject_Z (Z.of_nat (size data))])];
     get_metric :=
       λ _ p, {["acc" := match p with [(_, [q])] => q | _ => 0%Q end]};
     sv_new := λ n m, MultiRoundShapleyValue.mk n m 0 ∅ ∅;
     sv_compute :=
       λ f sv,
         match f {[0; 2]} with
         | Return q =>
             let round := MultiRoundShapleyValue.round_number sv + 1 in
             Return
               (MultiRoundShapleyValue.mk
                  (MultiRoundShapleyValue.worker_number sv) q round
                  (<[round := {[0 := q; 1 := 0%Q; 2 := q]}]>
                     (MultiRoundShapleyValue.shapley_values sv))
                  (<[round := {[0 := q; 2 := q]}]>
                     (MultiRoundShapleyValue.shapley_values_S sv)))
         | Raise e => Raise e
         | Blocked => Blocked
         end |}.

(** A server for three workers with best-subset choice switched on. *)
Definition server : Server.t :=
  {| Server.sv_algorithm := None;
     Server.choose_best_subset := true;
     Server.worker_number := 3;
     Server.cached_parameter_dict := [("w", [1%Q])];
     Server.metric_type := "acc" |}.

(** The updates of the workers 0, 1 and 2. *)
Definition update (n : Z) : message :=
  {["parameter" := VParameter [("w", [inject_Z n])]; "dataset_size" := VInt 10]}.

Definition received : worker_data :=
  {[0 := update 4; 1 := update 5; 2 := update 6]}.

(** A pool whose units need five seconds; the unit of the server returns
    the Shapley table of round 1 and the accuracy, the other unit
    nothing. *)
Definition pool : ProcessPool.t :=
  {| ProcessPool.units := [(0, true); (1, false)];
     ProcessPool.wait :=
       λ timeout, match timeout with
                  | None => true
                  | Some seconds => Qle_bool 5 seconds
                  end;
     ProcessPool.results :=
       [{["sv" := SShapley {[1 := {[0 := (1 # 10)%Q; 1 := (2 # 10)%Q;
                                    2 := (3 # 10)%Q]}]};
          "acc" := SMetric (9 # 10)%Q]};
        ∅] |}.

(** The task 42, started with the practitioner ids 7, 3 and 9. *)
Definition pending : task :=
  {| process_pool := pool;
     practitioner_ids := Some {[7; 3; 9]};
     config := {| worker_number := 3; log_file := "log" |} |}.

Definition world : World.t :=
  {| World.tasks := {[42 := pending]}; World.effects := [] |}.

(** What the retrieval of task 42 returns. *)
Definition retrieved : stats :=
  {["sv" := SShapley {[1 := {[3 := (1 # 10)%Q; 7 := (2 # 10)%Q;
                             9 := (3 # 10)%Q]}]};
    "acc" := SMetric (9 # 10)%Q]}.

(** A host with the given limit of open files, two processes. *)
Definition machine (limit : option Z) : host :=
  {| sysconf := limit;
     uuid4 := 42;
     get_worker_config :=
       λ _ _, {| worker_map := [(0, 2%nat); (1, 1%nat)]; server_config := true |};
     new_pool := ProcessPool.mk [] (ProcessPool.wait pool) (ProcessPool.results pool) |}.

End Samples.

(* ===================================================================== *)
(** ** The counters of the dropout worker *)
(* ===================================================================== *)

Module DropoutCounters.
Section Counters.
Context `{Inherited}.

(** [torch.count_nonzero(t).item()] *)
Definition count_nonzero (t : tensor) : Z :=
  Z.of_nat (length (filter (λ x, Qeq_bool x 0 = false) t)).

(** The loop of [FedDropoutAvgWorker._get_sent_data] with the counters
    it logs: [total_num += parameter[k].numel()] and
    [send_num += torch.count_nonzero(parameter[k]).item()].  The result
    is the masked dictionary, the position of the generator, and the
    pair [(total_num, send_num)]. *)
Fixpoint mask_and_count (rate : Q) (parameter : ParameterDict) (pos : nat)
    (total_num send_num : Z) : ParameterDict * nat * (Z * Z) :=
  match parameter with
  | [] => ([], pos, (total_num, send_num))
  | (k, v) :: rest =>
      let weight := FedDropoutAvgWorker.bernoulli_like rate v pos in
      let masked := tensor_mul v weight in
      let total_num := total_num + Z.of_nat (length masked) in
      let send_num := send_num + count_nonzero masked in
      let '(rest', pos', counts) :=
        mask_and_count rate rest (pos + length v)%nat total_num send_num in
      ((k, masked) :: rest', pos', counts)
  end.

End Counters.
End DropoutCounters.

(** The messages a dropout worker may put on its channel: an empty
    update, or a dictionary with a ["parameter"] entry and without a
    ["parameter_diff"] entry. *)
Definition diff_free (m : option message) : Prop :=
  match m with
  | None => True
  | Some msg => is_Some (msg !! "parameter") ∧ msg !! "parameter_diff" = None
  end.

(** The number of elements of a parameter dictionary. *)
Definition numel (p : ParameterDict) : nat :=
  foldr (λ kv n, (length kv.2 + n)%nat) 0%nat p.

Module MoreSamples.

(** The sample behaviour with a generator whose draws all keep. *)
Definition keep_all : Inherited :=
  {| client_stopped := @client_stopped Samples.inherited;
     aggregation_get_sent_data := @aggregation_get_sent_data Samples.inherited;
     torch_bernoulli := λ _ _, true |}.

(** A message without the two keys a result may hold. *)
Definition malformed : message := {["round" := VInt 3]}.


End MoreSamples.

Module ServerSamples.

(** The sample server in a later round: its estimator exists. *)
Definition later : Server.t :=
  Server.set_sv_algorithm
    (Some (MultiRoundShapleyValue.mk 3 1%Q 1 ∅ ∅)) Samples.server.


(** Only worker 1 has sent data. *)
Definition only_one : worker_data := {[1 := Samples.update 5]}.

(** An estimator that moves to the next round without recording a best
    subset for it. *)
Definition no_best : ServerInherited :=
  {| fed_avg_aggregate := @fed_avg_aggregate Samples.server_inherited;
     get_metric := @get_metric Samples.server_inherited;
     sv_new := @sv_new Samples.server_inherited;
     sv_compute :=
       λ _ sv,
         Return (MultiRoundShapleyValue.mk
                   (MultiRoundShapleyValue.worker_number sv)
                   (MultiRoundShapleyValue.last_round_metric sv)
                   (MultiRoundShapleyValue.round_number sv + 1)
                   (MultiRoundShapleyValue.shapley_values sv)
                   (MultiRoundShapleyValue.shapley_values_S sv)) |}.

End ServerSamples.

(* ===================================================================== *)
(** ** The result of a unit ([start_executors] of [training.py]) *)
(* ===================================================================== *)

Module StartExecutors.

(** What the result assembly reads of a server object.  [sv_attr] is
    [None] when the object has no attribute [sv_algorithm], [Some None]
    when the attribute is [None] (the Shapley server before its first
    aggregation), [Some (Some sv)] when it holds an estimator. *)
Record server := {
  sv_attr : option (option MultiRoundShapleyValue.t);
  performance_stat : gmap Z (gmap string Q);
  round_number : Z
}.

(** The roles run in a unit: workers, which have a [worker_id], and the
    server, which has none. *)
Inductive role :=
| AWorker (worker_id : Z)
| AServer (s : server).

(** The loop [for worker in workers] that builds [res] once all roles of
    the unit have finished. *)
Fixpoint collect (workers : list role) (res : stats) : outcome stats :=
  match workers with
  | [] => Return res
  | AWorker _ :: rest => collect rest res
  | AServer s :: rest =>
      match sv_attr s with
      | Some None => Raise AttributeError
      | attr =>
          let res :=
            match attr with
            | Some (Some sv) =>
                <["sv" := SShapley (MultiRoundShapleyValue.shapley_values sv)]> res
            | _ => res
            end in
          match performance_stat s !! round_number s with
          | Some stat => collect rest ((SMetric <$> stat) ∪ res)
          | None => Raise KeyError
          end
      end
  end.

(** The result of [start_executors]: the workers of the unit come first
    in the list of roles, the server, if the unit hosts it, last. *)
Definition result (worker_ids : list Z) (hosted : option server) : outcome stats :=
  collect ((AWorker <$> worker_ids)
           ++ match hosted with Some s => [AServer s] | None => [] end) ∅.

End StartExecutors.

Module OrchestrationSamples.

(** A Shapley server after round 2. *)
Definition server : StartExecutors.server :=
  {| StartExecutors.sv_attr :=
       Some (Some (MultiRoundShapleyValue.mk 3 1%Q 2
                     {[1 := {[0 := (1 # 10)%Q; 1 := (2 # 10)%Q; 2 := (3 # 10)%Q]}]}
                     ∅));
     StartExecutors.performance_stat :=
       {[1 := {["acc" := (8 # 10)%Q]}; 2 := {["acc" := (9 # 10)%Q]}]};
     StartExecutors.round_number := 2 |}.

(** A Shapley server that has not aggregated yet. *)
Definition fresh : StartExecutors.server :=
  {| StartExecutors.sv_attr := Some None;
     StartExecutors.performance_stat := {[0 := {["acc" := (1 # 10)%Q]}]};
     StartExecutors.round_number := 0 |}.

(** The sample task with a Shapley table whose round 1 lacks worker 2. *)
Definition short_pool : ProcessPool.t :=
  {| ProcessPool.units := [(0, true)];
     ProcessPool.wait := λ _, true;
     ProcessPool.results :=
       [{["sv" := SShapley {[1 := {[0 := (1 # 10)%Q; 1 := (2 # 10)%Q]}]}]}] |}.

Definition short_task : task :=
  {| process_pool := short_pool;
     practitioner_ids := Some {[7; 3; 9]};
     config := {| worker_number := 3; log_file := "log" |} |}.

Definition short_world : World.t :=
  {| World.tasks := {[42 := short_task]}; World.effects := [] |}.

(** The sample task started with the worker ids as practitioner ids. *)
Definition same_ids_task : task :=
  {| process_pool := Samples.pool;
     practitioner_ids := Some {[0; 1; 2]};
     config := {| worker_number := 3; log_file := "log" |} |}.

Definition same_ids_world : World.t :=
  {| World.tasks := {[42 := same_ids_task]}; World.effects := [] |}.

End OrchestrationSamples.
(* ===================================================================== *)
(** ** Theorems: endpoints *)
(* ===================================================================== *)

Section EndpointFacts.
Context {Data : Type}.
Implicit Types (ep : CentralTopology.t Data) (data : Data).

Lemma sends_worker_num data (ids : list Z) ep :
  CentralTopology.worker_num
    (foldl (λ ep' worker_id, ServerEndpoint.send data worker_id ep') ep ids)
  = CentralTopology.worker_num ep.
Proof. revert ep. induction ids as [|i ids IH]; intros ep; simpl; [done|]. by rewrite IH. Qed.

Lemma sends_calls data (ids : list Z) ep :
  CentralTopology.calls
    (foldl (λ ep' worker_id, ServerEndpoint.send data worker_id ep') ep ids)
  = CentralTopology.calls ep ++ ((λ i, (i, data)) <$> ids).
Proof.
  revert ep. induction ids as [|i ids IH]; intros ep; simpl.
  - by rewrite app_nil_r.
  - rewrite IH. simpl. by rewrite <- app_assoc.
Qed.

Lemma mailbox_send data (i j : Z) ep :
  CentralTopology.mailbox (ServerEndpoint.send data i ep) j
  = CentralTopology.mailbox ep j ++ (if decide (i = j) then [data] else []).
Proof.
  unfold ServerEndpoint.send, CentralTopology.send_to_worker.
  unfold CentralTopology.mailbox at 1. simpl.
  destruct (decide (i = j)) as [->|Hne].
  - by rewrite lookup_insert_eq.
  - rewrite lookup_insert_ne by done. by rewrite app_nil_r.
Qed.

Lemma sends_mailbox data (ids : list Z) ep (j : Z) :
  NoDup ids →
  CentralTopology.mailbox
    (foldl (λ ep' worker_id, ServerEndpoint.send data worker_id ep') ep ids) j
  = CentralTopology.mailbox ep j ++ (if decide (j ∈ ids) then [data] else []).
Proof.
  revert ep. induction ids as [|i ids IH]; intros ep Hnd; simpl.
  - by rewrite app_nil_r.
  - apply NoDup_cons in Hnd as [Hi Hnd]. rewrite IH, mailbox_send by done.
    rewrite <- app_assoc. f_equal.
    repeat case_decide; set_solver.
Qed.

Lemma elem_of_all_worker_ids ep (i : Z) :
  i ∈ ServerEndpoint.all_worker_ids ep ↔ 0 ≤ i < CentralTopology.worker_num ep.
Proof.
  unfold ServerEndpoint.all_worker_ids, ServerEndpoint.worker_num.
  rewrite elem_of_list_to_set, elem_of_seqZ. lia.
Qed.

Lemma sends_count data (order : list Z) (j : Z) :
  NoDup order →
  length (filter (λ c : Z * Data, c.1 = j) ((λ i, (i, data)) <$> order))
  = if decide (j ∈ order) then 1%nat else 0%nat.
Proof.
  induction order as [|i order IH]; intros Hnd; [done|].
  apply NoDup_cons in Hnd as [Hi Hnd]. rewrite fmap_cons, filter_cons. simpl.
  specialize (IH Hnd).
  repeat case_decide; simpl; rewrite ?IH; try done; set_solver.
Qed.

Lemma broadcast_unfold data worker_ids ep :
  let order := elements (ServerEndpoint.addressed worker_ids ep) in
  CentralTopology.calls (ServerEndpoint.broadcast data worker_ids ep)
    = CentralTopology.calls ep ++ ((λ i, (i, data)) <$> order)
  ∧ NoDup order
  ∧ ∀ j, CentralTopology.mailbox (ServerEndpoint.broadcast data worker_ids ep) j
        = CentralTopology.mailbox ep j
          ++ (if decide (j ∈ order) then [data] else []).
Proof.
  intros order. unfold ServerEndpoint.broadcast. fold order.
  assert (NoDup order) by apply NoDup_elements.
  split_and!; [apply sends_calls | done | intros j; by apply sends_mailbox].
Qed.

(** C9: a broadcast is a sequence of single sends of the same value, and
    nothing else: the calls it makes on the topology are one
    [send_to_worker] per target, each target once.  Without [worker_ids]
    the targets are the worker ids [0 .. N-1] (a duplicate-free
    permutation of them); with [worker_ids] every target is one of the
    named ids, and the targets are exactly the named ids that lie in
    [0 .. N-1], so that no named worker of the topology is left out.
    Every target finds the value appended once to its channel, the other
    channels are untouched, and the size of the topology is unchanged. *)
Theorem broadcast_single_sends data (worker_ids : option (list Z)) ep :
  ∃ order : list Z,
    CentralTopology.calls (ServerEndpoint.broadcast data worker_ids ep)
      = CentralTopology.calls ep ++ ((λ i, (i, data)) <$> order)
    ∧ NoDup order
    ∧ match worker_ids with
      | None => order ≡ₚ seqZ 0 (CentralTopology.worker_num ep)
      | Some ids =>
          order ⊆ ids
          ∧ ∀ i, i ∈ order ↔ i ∈ ids ∧ 0 ≤ i < CentralTopology.worker_num ep
      end
    ∧ (∀ j, CentralTopology.mailbox (ServerEndpoint.broadcast data worker_ids ep) j
          = CentralTopology.mailbox ep j
            ++ (if decide (j ∈ order) then [data] else []))
    ∧ (∀ j, CentralTopology.sends_to (ServerEndpoint.broadcast data worker_ids ep) j
          = (CentralTopology.sends_to ep j
             + (if decide (j ∈ order) then 1 else 0))%nat)
    ∧ CentralTopology.worker_num (ServerEndpoint.broadcast data worker_ids ep)
      = CentralTopology.worker_num ep.
Proof.
  destruct (broadcast_unfold data worker_ids ep) as (Hcalls & Hnd & Hbox).
  eexists. split_and!; [exact Hcalls | exact Hnd | | exact Hbox | |].
  - destruct worker_ids as [ids|]; simpl.
    + split.
      * intros i Hi. apply elem_of_elements in Hi. set_solver.
      * intros i. rewrite elem_of_elements, elem_of_intersection,
          elem_of_list_to_set, elem_of_all_worker_ids. done.
    + unfold ServerEndpoint.all_worker_ids, ServerEndpoint.worker_num.
      apply elements_list_to_set, NoDup_seqZ.
  - intros j. unfold CentralTopology.sends_to. rewrite Hcalls.
    rewrite filter_app, length_app, sends_count by done. done.
  - unfold ServerEndpoint.broadcast. apply sends_worker_num.
Qed.

(** C10: with an explicit [worker_ids] collection a worker receives the
    value exactly when its id is named and lies in [0 .. worker_num-1]:
    ids out of that range cause no send (and the call has no error
    path), and an id named several times is sent to once. *)
Theorem broadcast_explicit_ids data (ids : list Z) ep (j : Z) :
  let ep' := ServerEndpoint.broadcast data (Some ids) ep in
  let hit := bool_decide (j ∈ ids ∧ 0 ≤ j < CentralTopology.worker_num ep) in
  CentralTopology.sends_to ep' j
    = (CentralTopology.sends_to ep j + (if hit then 1 else 0))%nat
  ∧ CentralTopology.mailbox ep' j
    = CentralTopology.mailbox ep j ++ (if hit then [data] else [])
  ∧ CentralTopology.worker_num ep' = CentralTopology.worker_num ep.
Proof.
  intros ep' hit.
  destruct (broadcast_unfold data (Some ids) ep) as (Hcalls & Hnd & Hbox).
  set (order := elements (ServerEndpoint.addressed (Some ids) ep)) in *.
  assert (Hin : j ∈ order ↔ j ∈ ids ∧ 0 ≤ j < CentralTopology.worker_num ep).
  { unfold order. rewrite elem_of_elements. simpl.
    rewrite elem_of_intersection, elem_of_list_to_set, elem_of_all_worker_ids.
    done. }
  split_and!.
  - unfold CentralTopology.sends_to. subst ep'. rewrite Hcalls.
    rewrite filter_app, length_app, sends_count by done.
    f_equal. subst hit. repeat case_decide; case_bool_decide; tauto.
  - subst ep'. rewrite Hbox. f_equal.
    subst hit. repeat case_decide; case_bool_decide; tauto.
  - apply sends_worker_num.
Qed.

End EndpointFacts.

(* ===================================================================== *)
(** ** Theorems: workers *)
(* ===================================================================== *)

Section WorkerFacts.
Context `{Inherited}.
Implicit Types (w : Worker.t) (result : message).




(** One pass through the skip branch of the loop. *)
Lemma get_result_loop_skip rest w :
  Worker.from_server w = None :: rest →
  FedAVGWorker.get_result_loop (None :: rest) w
  = if FedAVGWorker._stopped (skipped 1 w)
    then (Return tt, skipped 1 w)
    else FedAVGWorker.get_result_loop rest (skipped 1 w).
Proof.
  intros Hfs. destruct w as [r s d dr ds tp c fs ts g h]. simpl in Hfs. subst fs.
  change (FedAVGWorker.get_result_loop (None :: rest) ?w0)
    with ((if FedAVGWorker._stopped (skipped 1 w0)
           then ret tt else FedAVGWorker.get_result_loop rest) (skipped 1 w0)).
  by destruct (FedAVGWorker._stopped _).
Qed.


Lemma skipped_fields k w :
  Worker.round_num (skipped k w) = Worker.round_num w + Z.of_nat k
  ∧ Worker.to_server (skipped k w) = Worker.to_server w ++ replicate k None
  ∧ Worker.from_server (skipped k w) = drop k (Worker.from_server w)
  ∧ Worker.stopped (skipped k w) = Worker.stopped w
  ∧ Worker.history (skipped k w) = Worker.history w
  ∧ Worker.trainer_parameter (skipped k w) = Worker.trainer_parameter w.
Proof. by destruct w. Qed.






(** *** Stopping *)
























(** *** The message of the dropout worker *)

Lemma is_mask_bernoulli_like rate (v : tensor) pos :
  is_mask (FedDropoutAvgWorker.bernoulli_like rate v pos)
  ∧ length (FedDropoutAvgWorker.bernoulli_like rate v pos) = length v.
Proof.
  unfold FedDropoutAvgWorker.bernoulli_like, is_mask. split.
  - apply Forall_fmap, Forall_forall. intros i _. simpl.
    destruct (torch_bernoulli _ _); auto.
  - by rewrite length_fmap, length_seq.
Qed.

Lemma mask_parameter_masked_of rate (parameter : ParameterDict) pos :
  masked_of parameter (FedDropoutAvgWorker.mask_parameter rate parameter pos).1.
Proof.
  revert pos. induction parameter as [|[k v] rest IH]; intros pos; simpl.
  - constructor.
  - specialize (IH (pos + length v)%nat).
    destruct (FedDropoutAvgWorker.mask_parameter rate rest (pos + length v)%nat)
      as [rest' pos'].
    simpl in *. constructor; [|exact IH]. simpl. split; [done|].
    destruct (is_mask_bernoulli_like rate v pos). eauto.
Qed.

Lemma load_to_server result w :
  Worker.to_server (FedAVGWorker.load_result_from_server result w).2
  = Worker.to_server w.
Proof.
  unfold FedAVGWorker.load_result_from_server.
  case_decide; [by destruct w|].
  unfold bind, or_raise.
  destruct (result !! "parameter") as [[p|n|b]|]; by destruct w.
Qed.

Lemma loop_to_server (msgs : list (option message)) w :
  Worker.to_server w `prefix_of`
    Worker.to_server (FedAVGWorker.get_result_loop msgs w).2.
Proof.
  revert w. induction msgs as [|[result|] rest IH]; intros w.
  - done.
  - change (FedAVGWorker.get_result_loop (Some result :: rest) w)
      with (FedAVGWorker.load_result_from_server result
              (Worker.set_from_server rest w)).
    rewrite load_to_server. by destruct w.
  - set (w1 := Worker.set_to_server (Worker.to_server w ++ [None])
                 (Worker.set_round_num (Worker.round_num w + 1)
                    (Worker.set_from_server rest w))).
    change (FedAVGWorker.get_result_loop (None :: rest) w)
      with ((if FedAVGWorker._stopped w1
             then ret tt else FedAVGWorker.get_result_loop rest) w1).
    assert (Worker.to_server w `prefix_of` Worker.to_server w1)
      by (destruct w; by apply prefix_app_r).
    destruct (FedAVGWorker._stopped w1); [done|].
    etrans; [done | apply IH].
Qed.

(** C1 (as the code has it): the dropout worker switches the parameter
    diff off.  When the message built by the base class carries the newly
    trained parameters under ["parameter"], the round message of the
    dropout worker carries under ["parameter"] those trained parameters,
    every tensor multiplied elementwise by a tensor of zeros and ones
    drawn for it, next to the dataset size; it has no ["parameter_diff"]
    entry and the cached parameters play no part in it. *)
Theorem dropout_sends_masked_parameter w :
  let w1 := Worker.set_send_parameter_diff false w in
  aggregation_get_sent_data w1 !! "parameter"
    = Some (VParameter (Worker.trainer_parameter w)) →
  aggregation_get_sent_data w1 !! "parameter_diff" = None →
  ∃ (msg : message) (masked : ParameterDict),
    Worker.to_server (WorkerRun.aggregation_hook WorkerRun.FedDropoutAvg w).2
      !! length (Worker.to_server w) = Some (Some msg)
    ∧ msg !! "parameter" = Some (VParameter masked)
    ∧ msg !! "parameter_diff" = None
    ∧ msg !! "dataset_size" = Some (VInt (Worker.dataset_size w))
    ∧ masked_of (Worker.trainer_parameter w) masked
    ∧ masked = (FedDropoutAvgWorker.mask_parameter (Worker.dropout_rate w)
                  (Worker.trainer_parameter w) (Worker.rng w)).1.
Proof.
  intros w1 Hpar Hdiff.
  pose proof (mask_parameter_masked_of (Worker.dropout_rate w)
                (Worker.trainer_parameter w) (Worker.rng w)) as Hmasked.
  destruct (FedDropoutAvgWorker.mask_parameter (Worker.dropout_rate w)
              (Worker.trainer_parameter w) (Worker.rng w))
    as [masked pos'] eqn:Hmask.
  set (sent0 := <["dataset_size" := VInt (Worker.dataset_size w)]>
                  (aggregation_get_sent_data w1)).
  set (msg := <["parameter" := VParameter masked]> sent0).
  set (w2 := Worker.set_rng pos' w1).
  assert (Hget : FedDropoutAvgWorker._get_sent_data w = (Return msg, w2)).
  { unfold FedDropoutAvgWorker._get_sent_data, FedAVGWorker._get_sent_data.
    unfold bind, modify, get, ret, or_raise. fold w1.
    replace (Worker.dataset_size w1) with (Worker.dataset_size w) by (by destruct w).
    fold sent0.
    assert (Hs0 : sent0 !! "parameter" = Some (VParameter (Worker.trainer_parameter w))).
    { unfold sent0. by rewrite lookup_insert_ne. }
    rewrite Hs0. unfold ret. cbv beta iota.
    replace (Worker.dropout_rate w1) with (Worker.dropout_rate w) by (by destruct w).
    replace (Worker.rng w1) with (Worker.rng w) by (by destruct w).
    rewrite Hmask. done. }
  set (w3 := Worker.set_to_server (Worker.to_server w2 ++ [Some msg]) w2).
  assert (Hagg : FedAVGWorker._aggretation msg w2
                 = FedAVGWorker.get_result_from_server w3).
  { unfold FedAVGWorker._aggretation, bind, get, Client.send_data_to_server, modify.
    replace (Worker.send_parameter_diff w2) with false by (by destruct w).
    done. }
  exists msg, masked. split_and!.
  - unfold WorkerRun.aggregation_hook. simpl. unfold bind at 1.
    rewrite Hget, Hagg.
    destruct (loop_to_server (Worker.from_server w3) w3) as [more Hmore].
    unfold FedAVGWorker.get_result_from_server. rewrite Hmore.
    replace (Worker.to_server w3) with (Worker.to_server w ++ [Some msg])
      by (by destruct w).
    rewrite <- app_assoc. by apply list_lookup_middle.
  - unfold msg. by rewrite lookup_insert_eq.
  - unfold msg, sent0. by rewrite !lookup_insert_ne.
  - unfold msg, sent0. rewrite lookup_insert_ne by done. by rewrite lookup_insert_eq.
  - done.
  - done.
Qed.

End WorkerFacts.

(* ===================================================================== *)
(** ** Theorems: the Shapley-value server *)
(* ===================================================================== *)

Section ServerFacts.
Context `{ServerInherited}.
Implicit Types (s : Server.t) (data : worker_data) (subset : gset Z).

Lemma restrict_empty_iff subset data :
  MultiRoundShapleyValueServer.restrict subset data = ∅ ↔ dom data ∩ subset = ∅.
Proof.
  unfold MultiRoundShapleyValueServer.restrict. rewrite map_empty. split.
  - intros Hnone. apply set_eq. intros i. split; [|set_solver].
    rewrite elem_of_intersection, elem_of_dom. intros [[x Hx] Hi].
    specialize (Hnone i). apply map_lookup_filter_None in Hnone as [Hn|Hn].
    + congruence.
    + exfalso. by apply (Hn x).
  - intros Hdisj i. apply map_lookup_filter_None.
    destruct (data !! i) as [x|] eqn:Hx; [|by left]. right.
    intros y _ Hi. simpl in Hi.
    assert (i ∈ dom data ∩ subset) as Hin
      by (apply elem_of_intersection; split; [by apply elem_of_dom|done]).
    rewrite Hdisj in Hin. set_solver.
Qed.

Lemma dom_restrict subset data :
  dom (MultiRoundShapleyValueServer.restrict subset data) = subset ∩ dom data.
Proof.
  apply dom_filter_L. intros i.
  rewrite elem_of_intersection, elem_of_dom. unfold is_Some. naive_solver.
Qed.

(** C4: when no worker of the subset has contributed data to the round,
    the subset metric raises the assertion error; it returns no value,
    whatever the base aggregation would make of an empty input. *)
Theorem subset_metric_fails_loudly s subset data :
  dom data ∩ subset = ∅ →
  MultiRoundShapleyValueServer._get_subset_metric s subset data
  = Raise AssertionError.
Proof.
  intros Hdisj. unfold MultiRoundShapleyValueServer._get_subset_metric.
  apply restrict_empty_iff in Hdisj. by rewrite decide_True.
Qed.

(** C3: with best-subset choice switched on, the worker data handed to
    the final aggregation of the round is the received data restricted to
    the worker ids that the estimator lists as best subset for its
    current round: its ids are those of the best subset that sent data,
    and all of the best subset when each of them did.  When the best
    subset is empty the received data is aggregated whole. *)
Theorem best_subset_aggregation s data (chosen : worker_data) s' :
  Server.choose_best_subset s = true →
  MultiRoundShapleyValueServer.final_worker_data data s = (Return chosen, s') →
  ∃ sv values,
    Server.sv_algorithm s' = Some sv
    ∧ MultiRoundShapleyValue.shapley_values_S sv
        !! MultiRoundShapleyValue.round_number sv = Some values
    ∧ MultiRoundShapleyValueServer._aggregate_worker_data data s
      = (fed_avg_aggregate s' chosen, s')
    ∧ (dom values ≠ ∅ →
         chosen = MultiRoundShapleyValueServer.restrict (dom values) data
         ∧ dom chosen = dom values ∩ dom data
         ∧ (dom values ⊆ dom data → dom chosen = dom values))
    ∧ (dom values = ∅ → chosen = data).
Proof.
  intros Hflag Hrun.
  unfold MultiRoundShapleyValueServer._aggregate_worker_data.
  unfold bind at 1. rewrite Hrun. unfold bind, get, lift.
  unfold MultiRoundShapleyValueServer.final_worker_data in Hrun.
  unfold bind at 1 in Hrun. unfold get at 1 in Hrun.
  unfold bind at 1 in Hrun.
  set (init := match Server.sv_algorithm s with
               | Some sv => ret sv | None => _ end) in Hrun.
  destruct (init s) as [[sv0|e|] s1] eqn:Hinit; [|done..].
  assert (Hs1 : Server.choose_best_subset s1 = true).
  { subst init. destruct (Server.sv_algorithm s).
    - unfold ret in Hinit. injection Hinit as _ <-. done.
    - unfold bind, or_raise, modify, ret in Hinit.
      destruct (get_metric s _ !! _); simpl in Hinit; [|done].
      injection Hinit as _ <-. by destruct s. }
  clear Hinit init. unfold bind, get, lift, modify in Hrun.
  destruct (sv_compute _ sv0) as [sv|e|]; [|done..].
  rewrite Hs1 in Hrun. unfold or_raise in Hrun.
  destruct (MultiRoundShapleyValue.shapley_values_S sv
              !! MultiRoundShapleyValue.round_number sv) as [values|] eqn:Hv;
    [|done].
  exists sv, values.
  unfold ret at 1 in Hrun. cbv beta iota in Hrun.
  destruct (decide (dom values ≠ ∅)) as [Hne|He];
    unfold ret in Hrun; injection Hrun as <- <-.
  - split_and!; try done.
    intros _. split; [done|]. split; [apply dom_restrict|].
    intros Hsub. rewrite dom_restrict. set_solver.
  - split_and!; done.
Qed.

End ServerFacts.

(* ===================================================================== *)
(** ** Theorems: orchestration *)
(* ===================================================================== *)

Section TrainingFacts.
Implicit Types (w : World.t) (h : host) (cfg : DistributedTrainingConfig).

Lemma exec_all_run (sc : bool) (wm : list (Z * nat)) (pool : ProcessPool.t) w :
  Training.exec_all sc wm pool w
  = (Return (foldl (λ p unit_, ProcessPool.exec unit_.1
                                 (bool_decide (unit_.1 = 0) && sc) p) pool wm),
     World.mk (World.tasks w) (World.effects w ++ (Exec <$> wm.*1))).
Proof.
  revert pool w. induction wm as [|[idx n] wm IH]; intros pool w; simpl.
  - unfold ret. rewrite app_nil_r. by destruct w.
  - unfold bind at 1. unfold World.act, modify. rewrite IH. simpl.
    by rewrite <- app_assoc.
Qed.

(** C8: [train] refuses to start on a host whose limit of open files is
    at most 1024: it raises [RuntimeError] and the module state is as
    before the call, with no action taken and no task registered.  On any
    other host a non-blocking start schedules the units, registers the
    task under the identifier drawn for it and returns that identifier
    without stopping the pool; a blocking start schedules the units,
    stops the pool, registers nothing and returns [None]. *)
Theorem train_checks_descriptor_limit h cfg (non_blocking : bool)
    (ids : option (gset Z)) w :
  let wc := get_worker_config h cfg ids in
  Training.train h cfg non_blocking ids w
  = if limit_too_low h then (Raise RuntimeError, w)
    else if non_blocking then
      (Return (Some (uuid4 h)),
       World.mk
         (<[uuid4 h := {| process_pool := scheduled wc (new_pool h);
                          practitioner_ids := ids;
                          config := cfg |}]> (World.tasks w))
         (World.effects w ++ start_effects wc))
    else
      (Return None,
       World.mk (World.tasks w) (World.effects w ++ start_effects wc ++ [StopPool])).
Proof.
  intros wc. unfold Training.train, limit_too_low.
  assert (Hgo : ∀ A (k : M World.t A),
            bind (ret tt) (λ _, k) w = k w) by done.
  set (body := bind (World.act SetEnviron) _).
  assert (Hbody : body w
    = if non_blocking then
        (Return (Some (uuid4 h)),
         World.mk
           (<[uuid4 h := {| process_pool := scheduled wc (new_pool h);
                            practitioner_ids := ids;
                            config := cfg |}]> (World.tasks w))
           (World.effects w ++ start_effects wc))
      else
        (Return None,
         World.mk (World.tasks w)
           (World.effects w ++ start_effects wc ++ [StopPool]))).
  { subst body. unfold bind at 1 2 3 4 5 6. unfold World.act, modify.
    cbv beta iota. unfold bind at 1. rewrite exec_all_run. cbv beta iota.
    fold wc. unfold scheduled, start_effects.
    destruct non_blocking; simpl;
      unfold bind, World.act, World.set_tasks, modify, ret; simpl;
      repeat rewrite <- app_assoc; reflexivity. }
  destruct (sysconf h) as [value|].
  - case_bool_decide; [done|]. by rewrite Hgo.
  - by rewrite Hgo.
Qed.

(** *** Merging and remapping *)

Lemma dom_merge_from (results : list stats) (acc : stats) :
  dom (foldl (λ tmp_stats result, result ∪ tmp_stats) acc results)
  = dom acc ∪ ⋃ (dom <$> results).
Proof.
  revert acc. induction results as [|r rs IH]; intros acc; simpl.
  - set_solver.
  - rewrite IH, dom_union_L. set_solver.
Qed.

Lemma dom_merge_results (results : list stats) :
  dom (Training.merge_results results) = ⋃ (dom <$> results).
Proof. unfold Training.merge_results. rewrite dom_merge_from. set_solver. Qed.

Lemma remap_round_spec (pairs : list (Z * Z)) (tmp acc out : gmap Z Q) :
  NoDup pairs.*1 →
  Training.remap_round pairs tmp acc = Return out →
  (∀ k, k ∉ pairs.*1 → out !! k = acc !! k)
  ∧ (∀ pid wid, (pid, wid) ∈ pairs →
       is_Some (tmp !! wid) ∧ out !! pid = tmp !! wid).
Proof.
  revert acc. induction pairs as [|[pid0 wid0] pairs IH]; intros acc Hnd Hrun.
  - injection Hrun as <-. split; [done|]. intros ?? Hin. by apply elem_of_nil in Hin.
  - simpl in *. apply NoDup_cons in Hnd as [Hfresh Hnd].
    destruct (tmp !! wid0) as [v|] eqn:Hv; [|done].
    destruct (IH _ Hnd Hrun) as [Hout Hin]. split.
    + intros k Hk. apply not_elem_of_cons in Hk as [Hne Hk].
      rewrite Hout by done. by rewrite lookup_insert_ne.
    + intros pid wid Hmem. apply elem_of_cons in Hmem as [Heq|Hmem].
      * injection Heq as -> ->. rewrite Hout by done.
        rewrite lookup_insert_eq. by rewrite Hv.
      * by apply Hin.
Qed.

Lemma remap_rounds_spec (pairs : list (Z * Z)) (items : list (Z * gmap Z Q))
    (acc out : gmap Z (gmap Z Q)) :
  NoDup items.*1 →
  Training.remap_rounds pairs items acc = Return out →
  (∀ r, r ∉ items.*1 → out !! r = acc !! r)
  ∧ (∀ r t, (r, t) ∈ items →
       ∃ row, Training.remap_round pairs t ∅ = Return row ∧ out !! r = Some row).
Proof.
  revert acc. induction items as [|[r0 t0] items IH]; intros acc Hnd Hrun.
  - injection Hrun as <-. split; [done|]. intros ?? Hin. by apply elem_of_nil in Hin.
  - simpl in *. apply NoDup_cons in Hnd as [Hfresh Hnd].
    destruct (Training.remap_round pairs t0 ∅) as [row0|e|] eqn:Hrow; [|done..].
    destruct (IH _ Hnd Hrun) as [Hout Hin]. split.
    + intros r Hr. apply not_elem_of_cons in Hr as [Hne Hr].
      rewrite Hout by done. by rewrite lookup_insert_ne.
    + intros r t Hmem. apply elem_of_cons in Hmem as [Heq|Hmem].
      * injection Heq as -> ->. exists row0. split; [done|].
        rewrite Hout by done. by rewrite lookup_insert_eq.
      * by apply Hin.
Qed.

Lemma remap_entries_spec (pairs : list (Z * Z)) (items : list (string * stat))
    (acc out : stats) :
  NoDup items.*1 →
  Training.remap_entries pairs items acc = Return out →
  (∀ k, k ∉ items.*1 → out !! k = acc !! k)
  ∧ (∀ k v, (k, v) ∈ items →
       if decide (k ≠ "sv") then out !! k = Some v
       else ∃ table sv_dict,
              v = SShapley table
              ∧ Training.remap_rounds pairs (map_to_list table) ∅ = Return sv_dict
              ∧ out !! k = Some (SShapley sv_dict)).
Proof.
  revert acc. induction items as [|[k0 v0] items IH]; intros acc Hnd Hrun.
  - injection Hrun as <-. split; [done|]. intros ?? Hin. by apply elem_of_nil in Hin.
  - simpl in *. apply NoDup_cons in Hnd as [Hfresh Hnd].
    destruct (decide (k0 ≠ "sv")) as [Hk0|Hk0].
    + destruct (IH _ Hnd Hrun) as [Hout Hin]. split.
      * intros k Hk. apply not_elem_of_cons in Hk as [Hne Hk].
        rewrite Hout by done. by rewrite lookup_insert_ne.
      * intros k v Hmem. apply elem_of_cons in Hmem as [Heq|Hmem]; [|by apply Hin].
        injection Heq as -> ->. rewrite decide_True by done.
        rewrite Hout by done. by rewrite lookup_insert_eq.
    + destruct v0 as [q|table]; [done|].
      destruct (Training.remap_rounds pairs (map_to_list table) ∅)
        as [sv_dict|e|] eqn:Hsv; [|done..].
      destruct (IH _ Hnd Hrun) as [Hout Hin]. split.
      * intros k Hk. apply not_elem_of_cons in Hk as [Hne Hk].
        rewrite Hout by done. by rewrite lookup_insert_ne.
      * intros k v Hmem. apply elem_of_cons in Hmem as [Heq|Hmem]; [|by apply Hin].
        injection Heq as -> ->. rewrite decide_False by done.
        exists table, sv_dict. split_and!; [done..|].
        rewrite Hout by done. by rewrite lookup_insert_eq.
Qed.

Lemma zip_fst_sublist {A B} (l : list A) (k : list B) :
  (zip l k).*1 `sublist_of` l.
Proof.
  revert k. induction l as [|x l IH]; intros [|y k]; simpl;
    try constructor; auto using sublist_nil_l.
Qed.

Lemma sorted_facts (ids : gset Z) :
  StronglySorted Z.le (Training.sorted ids)
  ∧ NoDup (Training.sorted ids)
  ∧ ∀ x, x ∈ Training.sorted ids ↔ x ∈ ids.
Proof.
  unfold Training.sorted. split_and!.
  - apply StronglySorted_merge_sort; apply _.
  - rewrite merge_sort_Permutation. apply NoDup_elements.
  - intros x. rewrite merge_sort_Permutation. apply elem_of_elements.
Qed.

Lemma pairs_NoDup (ids : gset Z) (n : Z) :
  NoDup (zip (Training.sorted ids) (seqZ 0 n)).*1.
Proof.
  eapply sublist_NoDup; [apply sorted_facts | apply zip_fst_sublist].
Qed.

Lemma elem_of_pairs (ids : gset Z) (n : Z) (pid wid : Z) :
  (pid, wid) ∈ zip (Training.sorted ids) (seqZ 0 n)
  ↔ ∃ i : nat, Training.sorted ids !! i = Some pid
               ∧ wid = Z.of_nat i ∧ Z.of_nat i < n.
Proof.
  split.
  - intros Hin. apply elem_of_lookup_zip_with in Hin as (i & x & y & Heq & Hx & Hy).
    injection Heq as -> ->.
    apply lookup_seqZ in Hy as [-> Hlt]. exists i. split_and!; [done|lia|done].
  - intros (i & Hx & -> & Hlt).
    apply (elem_of_lookup_zip_with_2 pair _ _ pid (Z.of_nat i) (pid, Z.of_nat i) i);
      [done|].
    rewrite lookup_seqZ. lia.
Qed.

Lemma remap_entries_lookup (pairs : list (Z * Z)) (tmp_stats out : stats) :
  Training.remap_entries pairs (map_to_list tmp_stats) ∅ = Return out →
  ∀ k,
    match tmp_stats !! k with
    | None => out !! k = None
    | Some v =>
        if decide (k ≠ "sv") then out !! k = Some v
        else ∃ table sv_dict,
               v = SShapley table
               ∧ Training.remap_rounds pairs (map_to_list table) ∅ = Return sv_dict
               ∧ out !! k = Some (SShapley sv_dict)
    end.
Proof.
  intros Hrun k.
  destruct (remap_entries_spec _ _ _ _ (NoDup_fst_map_to_list tmp_stats) Hrun)
    as [Hout Hin].
  destruct (tmp_stats !! k) as [v|] eqn:Hk.
  - apply Hin. by apply elem_of_map_to_list.
  - rewrite Hout; [done|]. intros Hmem.
    apply list_elem_of_fmap in Hmem as [[k' v] [-> Hmem]].
    apply elem_of_map_to_list in Hmem. simpl in *. congruence.
Qed.

Lemma remap_entries_dom (pairs : list (Z * Z)) (tmp_stats out : stats) :
  Training.remap_entries pairs (map_to_list tmp_stats) ∅ = Return out →
  dom out = dom tmp_stats.
Proof.
  intros Hrun. apply set_eq. intros k. rewrite !elem_of_dom.
  pose proof (remap_entries_lookup _ _ _ Hrun k) as Hk.
  destruct (tmp_stats !! k) as [v|].
  - case_decide.
    + rewrite Hk. split; eauto.
    + destruct Hk as (? & ? & _ & _ & ->). split; eauto.
  - rewrite Hk. split; intros [? ?]; done.
Qed.

Lemma get_training_result_pending (task_id : Z) (timeout : option Q) (tk : task) w :
  World.tasks w !! task_id = Some tk →
  Training.get_training_result task_id timeout w
  = if ProcessPool.wait (process_pool tk) timeout then
      let w' := World.mk (delete task_id (World.tasks w))
                         (World.effects w ++ [StopPool]) in
      let tmp_stats := Training.merge_results (ProcessPool.results (process_pool tk)) in
      match practitioner_ids tk with
      | Some ids =>
          match Training.remap_entries
                  (zip (Training.sorted ids) (seqZ 0 (worker_number (config tk))))
                  (map_to_list tmp_stats) ∅ with
          | Return st => (Return (Some st), w')
          | Raise e => (Raise e, w')
          | Blocked => (Blocked, w')
          end
      | None => (Return (Some tmp_stats), w')
      end
    else (Return None, w).
Proof.
  intros Htk. unfold Training.get_training_result.
  unfold bind at 1. unfold get. unfold bind at 1. rewrite Htk. simpl.
  destruct (ProcessPool.wait (process_pool tk) timeout); simpl; [|done].
  unfold bind at 1. unfold World.set_tasks, modify.
  unfold bind at 1. unfold World.act, modify. simpl.
  destruct (practitioner_ids tk) as [ids|]; [|done].
  unfold bind, lift.
  by destruct (Training.remap_entries _ _ _).
Qed.

Lemma get_training_result_gone (task_id : Z) (timeout : option Q) w :
  World.tasks w !! task_id = None →
  Training.get_training_result task_id timeout w = (Raise KeyError, w).
Proof.
  intros Htk. unfold Training.get_training_result.
  unfold bind at 1. unfold get. unfold bind at 1. by rewrite Htk.
Qed.

Lemma merge_results_snoc (results : list stats) (r : stats) :
  Training.merge_results (results ++ [r]) = r ∪ Training.merge_results results.
Proof. unfold Training.merge_results. by rewrite foldl_app. Qed.

(** The value the merge has for a key is the value of the last of the
    units' results that holds the key. *)
Lemma merge_results_lookup (results : list stats) (k : string) (v : stat) :
  Training.merge_results results !! k = Some v
  ↔ ∃ pre unit_result post,
      results = pre ++ unit_result :: post
      ∧ unit_result !! k = Some v
      ∧ Forall (λ later : stats, later !! k = None) post.
Proof.
  induction results as [|r rs IH] using rev_ind.
  - split; [done|]. intros (pre & u & post & Heq & _).
    by destruct pre.
  - rewrite merge_results_snoc, lookup_union_Some_raw. split.
    + intros [Hr|[Hr Hrs]].
      * exists rs, r, []. by split_and!.
      * apply IH in Hrs as (pre & u & post & -> & Hu & Hpost).
        exists pre, u, (post ++ [r]). split_and!.
        -- by rewrite <- app_assoc.
        -- done.
        -- apply Forall_app. split; [done|]. by apply Forall_singleton.
    + intros (pre & u & post & Heq & Hu & Hpost).
      destruct post as [|x post _] using rev_ind.
      * apply (app_inj_tail rs pre r u) in Heq as [-> ->]. by left.
      * change (pre ++ u :: post ++ [x]) with (pre ++ (u :: post) ++ [x]) in Heq.
        rewrite app_assoc in Heq. apply app_inj_tail in Heq as [-> ->].
        apply Forall_app in Hpost as [Hpost Hx]. apply Forall_inv in Hx.
        right. split; [done|]. apply IH. by exists pre, u, post.
Qed.

(** C5: polling a pending task whose units have not finished within the
    timeout returns [None] and leaves the module state as it was, so the
    task stays pending.  Once the units have finished, the call takes
    this task, and no other, out of the pending set, stops the pool, and
    never answers [None]; a second retrieval finds no such task.  A
    result it returns is the merge of the units' partial results by key
    union: its keys are the union of their keys, and the value under a
    key is the value of the last unit, in the pool's order, whose result
    holds the key.  With practitioner ids this holds for every key but
    ["sv"], whose value is the remapping of the table that the last unit
    holding ["sv"] returned. *)
Theorem polling_and_retrieval (task_id : Z) (timeout : option Q) (tk : task) w :
  World.tasks w !! task_id = Some tk →
  let r := Training.get_training_result task_id timeout w in
  let results := ProcessPool.results (process_pool tk) in
  if ProcessPool.wait (process_pool tk) timeout then
    World.tasks r.2 = delete task_id (World.tasks w)
    ∧ World.tasks r.2 !! task_id = None
    ∧ (∀ other, other ≠ task_id → World.tasks r.2 !! other = World.tasks w !! other)
    ∧ World.effects r.2 = World.effects w ++ [StopPool]
    ∧ r.1 ≠ Return None
    ∧ (practitioner_ids tk = None →
         r.1 = Return (Some (Training.merge_results results)))
    ∧ (∀ st, r.1 = Return (Some st) →
         dom st = ⋃ (dom <$> results)
         ∧ (∀ k v, practitioner_ids tk = None ∨ k ≠ "sv" →
              (st !! k = Some v
               ↔ ∃ pre unit_result post,
                   results = pre ++ unit_result :: post
                   ∧ unit_result !! k = Some v
                   ∧ Forall (λ later : stats, later !! k = None) post))
         ∧ (∀ ids x, practitioner_ids tk = Some ids → st !! "sv" = Some x →
              ∃ pre unit_result post table sv_dict,
                results = pre ++ unit_result :: post
                ∧ unit_result !! "sv" = Some (SShapley table)
                ∧ Forall (λ later : stats, later !! "sv" = None) post
                ∧ Training.remap_rounds
                    (zip (Training.sorted ids) (seqZ 0 (worker_number (config tk))))
                    (map_to_list table) ∅ = Return sv_dict
                ∧ x = SShapley sv_dict))
    ∧ Training.get_training_result task_id timeout r.2 = (Raise KeyError, r.2)
  else r = (Return None, w).
Proof.
  intros Htk r results. subst r results.
  rewrite (get_training_result_pending _ _ tk) by done.
  destruct (ProcessPool.wait (process_pool tk) timeout); [|done].
  cbv zeta.
  set (w' := World.mk _ _).
  set (tmp_stats := Training.merge_results _).
  assert (Hgone : World.tasks w' !! task_id = None) by apply lookup_delete_eq.
  assert (Hother : ∀ other, other ≠ task_id →
            World.tasks w' !! other = World.tasks w !! other).
  { intros other Hne. by apply lookup_delete_ne. }
  destruct (practitioner_ids tk) as [ids|].
  - destruct (Training.remap_entries _ _ _) as [st|e|] eqn:Hremap; simpl;
      (split_and!; [done | done | done | done | done | done |
                    | by apply get_training_result_gone]).
    + intros st' Heq. injection Heq as <-. split_and!.
      * rewrite (remap_entries_dom _ _ _ Hremap). apply dom_merge_results.
      * intros k v [Hnone|Hk]; [done|].
        rewrite <- merge_results_lookup. fold tmp_stats.
        pose proof (remap_entries_lookup _ _ _ Hremap k) as Hlk.
        destruct (tmp_stats !! k) as [v0|].
        -- rewrite decide_True in Hlk by done. by rewrite Hlk.
        -- by rewrite Hlk.
      * intros ids' x Hids Hx. injection Hids as <-.
        pose proof (remap_entries_lookup _ _ _ Hremap "sv") as Hlk.
        destruct (tmp_stats !! "sv") as [v0|] eqn:Hv0; [|congruence].
        rewrite decide_False in Hlk by (intros Hne; by apply Hne).
        destruct Hlk as (table & sv_dict & -> & Hrounds & Hst).
        apply merge_results_lookup in Hv0 as (pre & u & post & Heq & Hu & Hpost).
        exists pre, u, post, table, sv_dict. split_and!; try done. congruence.
    + intros st' Heq. done.
    + intros st' Heq. done.
  - simpl. split_and!; [done..| |by apply get_training_result_gone].
    intros st' Heq. injection Heq as <-. split_and!.
    + apply dom_merge_results.
    + intros k v _. by rewrite <- merge_results_lookup.
    + intros ids x Hids. done.
Qed.

Lemma remap_round_dom (ids : gset Z) (n : Z) (t row : gmap Z Q) :
  Training.remap_round (zip (Training.sorted ids) (seqZ 0 n)) t ∅ = Return row →
  (∀ (i : nat) pid, Training.sorted ids !! i = Some pid → Z.of_nat i < n →
     is_Some (t !! Z.of_nat i) ∧ row !! pid = t !! Z.of_nat i)
  ∧ (∀ pid, is_Some (row !! pid) →
       ∃ i : nat, Training.sorted ids !! i = Some pid ∧ Z.of_nat i < n).
Proof.
  intros Hrow.
  destruct (remap_round_spec _ _ _ _ (pairs_NoDup ids n) Hrow) as [Hout Hin].
  split.
  - intros i pid Hi Hlt. apply Hin. apply elem_of_pairs. eauto.
  - intros pid Hsome.
    destruct (decide (pid ∈ (zip (Training.sorted ids) (seqZ 0 n)).*1)) as [Hmem|Hmem].
    + apply list_elem_of_fmap in Hmem as [[pid' wid] [-> Hmem]].
      apply elem_of_pairs in Hmem as (i & Hi & _ & Hlt). eauto.
    + rewrite (Hout _ Hmem), lookup_empty in Hsome. by destruct Hsome.
Qed.

(** C2: when practitioner ids were given, a result that
    [get_training_result] returns passes every entry other than ["sv"]
    through as merged, and holds under ["sv"] a table with the same
    rounds in which, for every round, the practitioner id at position [i]
    of the ascending practitioner ids carries the value of worker [i],
    for the positions below the worker number, and no other id carries a
    value.  For the ids 7, 3, 9 and three workers this maps 3, 7, 9 to
    the values of the workers 0, 1, 2. *)
Theorem shapley_tables_remapped (task_id : Z) (timeout : option Q) (tk : task)
    (ids : gset Z) (st : stats) w w' :
  World.tasks w !! task_id = Some tk →
  practitioner_ids tk = Some ids →
  Training.get_training_result task_id timeout w = (Return (Some st), w') →
  let tmp_stats := Training.merge_results (ProcessPool.results (process_pool tk)) in
  let n := worker_number (config tk) in
  StronglySorted Z.le (Training.sorted ids)
  ∧ NoDup (Training.sorted ids)
  ∧ (∀ x, x ∈ Training.sorted ids ↔ x ∈ ids)
  ∧ (∀ k, k ≠ "sv" → st !! k = tmp_stats !! k)
  ∧ (tmp_stats !! "sv" = None → st !! "sv" = None)
  ∧ (∀ v, tmp_stats !! "sv" = Some v →
       ∃ table sv_dict,
         v = SShapley table
         ∧ st !! "sv" = Some (SShapley sv_dict)
         ∧ dom sv_dict = dom table
         ∧ ∀ round t, table !! round = Some t →
             ∃ row, sv_dict !! round = Some row
               ∧ (∀ (i : nat) pid,
                    Training.sorted ids !! i = Some pid → Z.of_nat i < n →
                    is_Some (t !! Z.of_nat i) ∧ row !! pid = t !! Z.of_nat i)
               ∧ (∀ pid, is_Some (row !! pid) →
                    ∃ i : nat, Training.sorted ids !! i = Some pid
                               ∧ Z.of_nat i < n)).
Proof.
  intros Htk Hids Hrun tmp_stats n.
  rewrite (get_training_result_pending _ _ tk) in Hrun by done.
  destruct (ProcessPool.wait (process_pool tk) timeout); [|done].
  cbv zeta in Hrun. rewrite Hids in Hrun. fold tmp_stats n in Hrun.
  destruct (Training.remap_entries _ _ _) as [st0|e|] eqn:Hremap; [|done..].
  injection Hrun as -> _.
  pose proof (remap_entries_lookup _ _ _ Hremap) as Hlook.
  destruct (sorted_facts ids) as (Hsorted & Hnd & Hmem).
  split_and!; [done..| | |].
  - intros k Hk. specialize (Hlook k).
    destruct (tmp_stats !! k); [by rewrite decide_True in Hlook | done].
  - intros Hnone. specialize (Hlook "sv"). by rewrite Hnone in Hlook.
  - intros v Hv. specialize (Hlook "sv"). rewrite Hv in Hlook.
    rewrite decide_False in Hlook by (intros Hne; by apply Hne).
    destruct Hlook as (table & sv_dict & -> & Hrounds & Hst).
    exists table, sv_dict. split_and!; [done..| |].
    + destruct (remap_rounds_spec _ _ _ _ (NoDup_fst_map_to_list table) Hrounds)
        as [Hout Hin].
      apply set_eq. intros r. rewrite !elem_of_dom. split.
      * intros Hsome. destruct (table !! r) eqn:Hr; [eauto|].
        rewrite Hout, lookup_empty in Hsome; [by destruct Hsome|].
        intros Hm. apply list_elem_of_fmap in Hm as [[r' t'] [-> Hm]].
        apply elem_of_map_to_list in Hm. simpl in *. congruence.
      * intros [t Ht]. apply elem_of_map_to_list in Ht.
        destruct (Hin _ _ Ht) as (row & _ & ->). eauto.
    + intros round t Ht.
      destruct (remap_rounds_spec _ _ _ _ (NoDup_fst_map_to_list table) Hrounds)
        as [_ Hin].
      apply elem_of_map_to_list in Ht.
      destruct (Hin _ _ Ht) as (row & Hrow & Hlk).
      exists row. split; [done|]. by apply remap_round_dom.
Qed.

End TrainingFacts.

(* ===================================================================== *)
(** ** The worker theorems on sample workers *)
(* ===================================================================== *)





Lemma dropout_sends_masked_parameter_witness :
  let w := Samples.worker [Some Samples.end_training] in
  let w1 := Worker.set_send_parameter_diff false w in
  @aggregation_get_sent_data Samples.inherited w1 !! "parameter"
    = Some (VParameter (Worker.trainer_parameter w))
  ∧ @aggregation_get_sent_data Samples.inherited w1 !! "parameter_diff" = None
  ∧ ∃ (msg : message) (masked : ParameterDict),
      Worker.to_server
        (@WorkerRun.aggregation_hook Samples.inherited WorkerRun.FedDropoutAvg w).2
        !! 0%nat = Some (Some msg)
      ∧ msg !! "parameter" = Some (VParameter masked)
      ∧ msg !! "parameter_diff" = None
      ∧ masked = [("w", [(3 * 1)%Q; (5 * 0)%Q])].
Proof.
  intros w w1.
  assert (H1 : @aggregation_get_sent_data Samples.inherited w1 !! "parameter"
    = Some (VParameter (Worker.trainer_parameter w))) by reflexivity.
  assert (H2 : @aggregation_get_sent_data Samples.inherited w1 !! "parameter_diff"
    = (None : option value)) by reflexivity.
  split_and!; try assumption.
  destruct (@dropout_sends_masked_parameter Samples.inherited w H1 H2)
    as (msg & masked & Hsent & Hpar & Hdiff & _ & _ & Heq).
  exists msg, masked. split_and!; [exact Hsent | exact Hpar | exact Hdiff |].
  rewrite Heq. reflexivity.
Defined.

(** C1 (as the claim has it) fails: a dropout worker that trained
    [w = (3, 5)] from the cached [w = (1, 1)] and draws keep, drop sends
    the single message whose parameter payload is [w = (3, 0)]: the
    masked trained parameters, not a masking of the diff [(2, 4)] or of
    [(-2, -4)]. *)
Lemma dropout_message_is_not_masked_diff :
  let w := Samples.worker [Some Samples.end_training] in
  ∃ msg : message,
    Worker.to_server
      (@WorkerRun.aggregation_hook Samples.inherited WorkerRun.FedDropoutAvg w).2
      = [Some msg]
    ∧ ¬ carries_masked_diff (Worker.cached_parameter_dict w)
          (Worker.trainer_parameter w) msg.
Proof.
  intros w.
  exists (<["parameter" := VParameter [("w", [(3 * 1)%Q; (5 * 0)%Q])]]>
            (<["dataset_size" := VInt 10]>
               ({["parameter" := VParameter [("w", [3%Q; 5%Q])]]} : message))).
  split; [vm_compute; reflexivity|].
  intros (d & s & Hd & Hs & Hz).
  destruct Hs as [Hs|Hs].
  { by rewrite !lookup_insert_ne in Hs. }
  rewrite lookup_insert_eq in Hs. injection Hs as <-.
  assert (Hfirst : ∃ x rest, d = [("w", x :: rest)] ∧ (x = (3 - 1)%Q ∨ x = (1 - 3)%Q)).
  { destruct Hd as [Hd|Hd]; vm_compute in Hd; injection Hd as <-; eauto. }
  destruct Hfirst as (x & rest & -> & Hx).
  apply Forall2_cons_1 in Hz as [[_ Hv] _]. simpl in Hv.
  apply Forall2_cons_1 in Hv as [Hq _].
  destruct Hx as [-> | ->]; destruct Hq as [Hq|Hq]; vm_compute in Hq; discriminate.
Qed.

(* ===================================================================== *)
(** ** The server and orchestration theorems on samples *)
(* ===================================================================== *)

Lemma subset_metric_fails_loudly_witness :
  dom Samples.received ∩ ({[5; 8]} : gset Z) = ∅
  ∧ @MultiRoundShapleyValueServer._get_subset_metric Samples.server_inherited
      Samples.server {[5; 8]} Samples.received = Raise AssertionError.
Proof.
  assert (Hdisj : dom Samples.received ∩ ({[5; 8]} : gset Z) = ∅)
    by (vm_compute; reflexivity).
  split; [exact Hdisj|].
  exact (@subset_metric_fails_loudly Samples.server_inherited
           Samples.server {[5; 8]} Samples.received Hdisj).
Defined.

Lemma best_subset_aggregation_witness :
  let chosen : worker_data := {[0 := Samples.update 4; 2 := Samples.update 6]} in
  let s' := (@MultiRoundShapleyValueServer.final_worker_data
               Samples.server_inherited Samples.received Samples.server).2 in
  Server.choose_best_subset Samples.server = true
  ∧ @MultiRoundShapleyValueServer.final_worker_data
      Samples.server_inherited Samples.received Samples.server
    = (Return chosen, s')
  ∧ @MultiRoundShapleyValueServer._aggregate_worker_data
      Samples.server_inherited Samples.received Samples.server
    = (@fed_avg_aggregate Samples.server_inherited s' chosen, s').
Proof.
  intros chosen s'.
  assert (H1 : Server.choose_best_subset Samples.server = true) by reflexivity.
  assert (H2 : @MultiRoundShapleyValueServer.final_worker_data
      Samples.server_inherited Samples.received Samples.server
    = (Return chosen, s')) by (vm_compute; reflexivity).
  split_and!; [exact H1 | exact H2 |].
  destruct (@best_subset_aggregation Samples.server_inherited
              Samples.server Samples.received chosen s' H1 H2)
    as (sv & values & _ & _ & Hagg & _).
  exact Hagg.
Defined.

Lemma polling_and_retrieval_witness :
  let r := Training.get_training_result 42 None Samples.world in
  World.tasks Samples.world !! 42 = Some Samples.pending
  ∧ Training.get_training_result 42 (Some 1%Q) Samples.world
    = (Return None, Samples.world)
  ∧ World.tasks r.2 !! 42 = None
  ∧ World.effects r.2 = [StopPool]
  ∧ r.1 = Return (Some Samples.retrieved)
  ∧ Samples.retrieved !! "acc" = Some (SMetric (9 # 10)%Q)
  ∧ Training.get_training_result 42 None r.2 = (Raise KeyError, r.2).
Proof.
  intros r.
  assert (H1 : World.tasks Samples.world !! 42 = Some Samples.pending)
    by reflexivity.
  split; [exact H1|]. split.
  { exact (polling_and_retrieval 42 (Some 1%Q) Samples.pending Samples.world H1). }
  pose proof (polling_and_retrieval 42 None Samples.pending Samples.world H1)
    as Hdone.
  cbv zeta in Hdone.
  change (ProcessPool.wait (process_pool Samples.pending) None) with true in Hdone.
  cbv iota in Hdone.
  destruct Hdone as (_ & Hgone & _ & Heff & _ & _ & Hres & Hagain).
  assert (Hst : r.1 = Return (Some Samples.retrieved))
    by (vm_compute; reflexivity).
  split_and!; [exact Hgone | exact Heff | exact Hst | | exact Hagain].
  destruct (Hres Samples.retrieved Hst) as (_ & Hval & _).
  apply Hval; [by right|].
  exists [], {["sv" := SShapley {[1 := {[0 := (1 # 10)%Q; 1 := (2 # 10)%Q;
                                        2 := (3 # 10)%Q]}]};
               "acc" := SMetric (9 # 10)%Q]}, [∅].
  split_and!; [reflexivity | reflexivity |].
  apply Forall_singleton. reflexivity.
Defined.

Lemma shapley_tables_remapped_witness :
  let w' := World.mk ∅ [StopPool] in
  World.tasks Samples.world !! 42 = Some Samples.pending
  ∧ practitioner_ids Samples.pending = Some {[7; 3; 9]}
  ∧ Training.get_training_result 42 None Samples.world
    = (Return (Some Samples.retrieved), w')
  ∧ StronglySorted Z.le (Training.sorted {[7; 3; 9]})
  ∧ ∀ k, k ≠ "sv" →
      Samples.retrieved !! k
      = Training.merge_results (ProcessPool.results Samples.pool) !! k.
Proof.
  intros w'.
  assert (H1 : World.tasks Samples.world !! 42 = Some Samples.pending)
    by reflexivity.
  assert (H2 : practitioner_ids Samples.pending = Some {[7; 3; 9]})
    by reflexivity.
  assert (H3 : Training.get_training_result 42 None Samples.world
    = (Return (Some Samples.retrieved), w')) by (vm_compute; reflexivity).
  split_and!; [exact H1 | exact H2 | exact H3 | |];
    destruct (shapley_tables_remapped 42 None Samples.pending {[7; 3; 9]}
                Samples.retrieved Samples.world w' H1 H2 H3)
      as (Hsorted & _ & _ & Hother & _);
    [exact Hsorted | exact Hother].
Defined.

(** The retrieval of the sample task: the practitioner ids 3, 7 and 9
    carry the values of the workers 0, 1 and 2. *)
Example remap_7_3_9 :
  Training.sorted {[7; 3; 9]} = [3; 7; 9]
  ∧ (Training.get_training_result 42 None Samples.world).1
    = Return (Some Samples.retrieved)
  ∧ Training.remap_round (zip [3; 7; 9] (seqZ 0 3))
      {[0 := (1 # 10)%Q; 1 := (2 # 10)%Q; 2 := (3 # 10)%Q]} ∅
    = Return {[3 := (1 # 10)%Q; 7 := (2 # 10)%Q; 9 := (3 # 10)%Q]}.
Proof. split_and!; vm_compute; reflexivity. Qed.

(** A start on a host with 1024 open files is refused; with 4096 a
    non-blocking start registers task 42 and a blocking start does not. *)
Example train_on_samples :
  let cfg := {| worker_number := 3; log_file := "log" |} in
  let empty := World.mk ∅ [] in
  Training.train (Samples.machine (Some 1024)) cfg true None empty
    = (Raise RuntimeError, empty)
  ∧ (Training.train (Samples.machine (Some 4096)) cfg true None empty).1
    = Return (Some 42)
  ∧ dom (World.tasks
           (Training.train (Samples.machine (Some 4096)) cfg true None empty).2)
    = {[42]}
  ∧ (Training.train (Samples.machine None) cfg false None empty).1 = Return None
  ∧ World.tasks (Training.train (Samples.machine None) cfg false None empty).2 = ∅.
Proof. split_and!; vm_compute; reflexivity. Qed.

(** A broadcast to three workers, to all of them and to the named ids
    2, 7, 2 and -1. *)
Example broadcast_on_samples :
  let topo := CentralTopology.mk 3 ∅ ∅ ([] : list (Z * nat)) in
  (CentralTopology.sends_to (ServerEndpoint.broadcast 5%nat None topo) <$> [0; 1; 2; 3])
    = [1; 1; 1; 0]%nat
  ∧ CentralTopology.calls (ServerEndpoint.broadcast 5%nat (Some [2; 7; 2; -1]) topo)
    = [(2, 5%nat)].
Proof. split; vm_compute; reflexivity. Qed.

(* ===================================================================== *)
(** ** More about the endpoints *)
(* ===================================================================== *)

Section EndpointMore.
Context {Data : Type}.
Implicit Types (ep : CentralTopology.t Data) (data : Data).

Lemma broadcast_worker_num data worker_ids ep :
  CentralTopology.worker_num (ServerEndpoint.broadcast data worker_ids ep)
  = CentralTopology.worker_num ep.
Proof. apply sends_worker_num. Qed.

Lemma elem_of_addressed (worker_ids : option (list Z)) ep (j : Z) :
  j ∈ ServerEndpoint.addressed worker_ids ep
  ↔ 0 ≤ j < CentralTopology.worker_num ep
    ∧ match worker_ids with None => True | Some ids => j ∈ ids end.
Proof.
  destruct worker_ids as [ids|]; simpl.
  - rewrite elem_of_intersection, elem_of_list_to_set, elem_of_all_worker_ids.
    tauto.
  - rewrite elem_of_all_worker_ids. tauto.
Qed.

(** X1: a broadcast depends on the named worker ids only as a set, and
    only on its part inside [0 .. worker_num-1]: two collections that name
    the same workers of that range, in whatever order and however often,
    give every worker the same, that is the same content of its channel
    and the same number of sends, and they make the same send calls up to
    the order of the calls, which is the order in which the set of the
    targets is iterated. *)
Theorem broadcast_ids_as_set data (ids1 ids2 : list Z) ep :
  (∀ j, 0 ≤ j < CentralTopology.worker_num ep → (j ∈ ids1 ↔ j ∈ ids2)) →
  let ep1 := ServerEndpoint.broadcast data (Some ids1) ep in
  let ep2 := ServerEndpoint.broadcast data (Some ids2) ep in
  (∀ j, CentralTopology.mailbox ep1 j = CentralTopology.mailbox ep2 j)
  ∧ (∀ j, CentralTopology.sends_to ep1 j = CentralTopology.sends_to ep2 j)
  ∧ CentralTopology.worker_num ep1 = CentralTopology.worker_num ep2
  ∧ ∃ order1 order2 : list Z,
      CentralTopology.calls ep1
        = CentralTopology.calls ep ++ ((λ i, (i, data)) <$> order1)
      ∧ CentralTopology.calls ep2
        = CentralTopology.calls ep ++ ((λ i, (i, data)) <$> order2)
      ∧ order1 ≡ₚ order2.
Proof.
  intros Hsame ep1 ep2.
  destruct (broadcast_unfold data (Some ids1) ep) as (Hcalls1 & Hnd1 & Hbox1).
  destruct (broadcast_unfold data (Some ids2) ep) as (Hcalls2 & Hnd2 & Hbox2).
  set (order1 := elements (ServerEndpoint.addressed (Some ids1) ep)) in *.
  set (order2 := elements (ServerEndpoint.addressed (Some ids2) ep)) in *.
  assert (Hin : ∀ j, j ∈ order1 ↔ j ∈ order2).
  { intros j. unfold order1, order2. rewrite !elem_of_elements, !elem_of_addressed.
    split; intros [Hj Hn]; (split; [done|]); by apply (Hsame j Hj). }
  assert (Hhit : ∀ (A : Type) (x y : A) j,
            (if decide (j ∈ order1) then x else y)
            = (if decide (j ∈ order2) then x else y)).
  { intros A x y j. destruct (decide (j ∈ order1)) as [H1|H1];
      destruct (decide (j ∈ order2)) as [H2|H2]; try done;
      exfalso; apply Hin in H1 || apply Hin in H2; done. }
  split_and!.
  - intros j. subst ep1 ep2. by rewrite Hbox1, Hbox2, Hhit.
  - intros j. unfold CentralTopology.sends_to. subst ep1 ep2.
    rewrite Hcalls1, Hcalls2, !filter_app, !length_app, !sends_count by done.
    by rewrite Hhit.
  - subst ep1 ep2. by rewrite !broadcast_worker_num.
  - exists order1, order2. split_and!; [done | done |].
    by apply NoDup_Permutation.
Qed.

(** X2: naming every worker of the topology is the same as naming
    none: a broadcast to a collection that holds all of
    [0 .. worker_num-1] equals the default broadcast. *)
Theorem broadcast_all_named data (ids : list Z) ep :
  (∀ j, 0 ≤ j < CentralTopology.worker_num ep → j ∈ ids) →
  ServerEndpoint.broadcast data (Some ids) ep
  = ServerEndpoint.broadcast data None ep.
Proof.
  intros Hall. unfold ServerEndpoint.broadcast.
  replace (ServerEndpoint.addressed (Some ids) ep)
    with (ServerEndpoint.addressed None ep); [done|].
  apply set_eq. intros j. rewrite !elem_of_addressed.
  split; intros [Hj Hin]; (split; [done|]); [by apply Hall | done].
Qed.

(** X3: broadcasts compose in order on every channel: after a broadcast
    of [d1] followed by a broadcast of [d2] a worker finds, behind what
    its channel held, [d1] if the first broadcast addressed it and then
    [d2] if the second did. *)
Theorem broadcast_twice_fifo (d1 d2 : Data) (ids1 ids2 : option (list Z)) ep (j : Z) :
  CentralTopology.mailbox
    (ServerEndpoint.broadcast d2 ids2 (ServerEndpoint.broadcast d1 ids1 ep)) j
  = CentralTopology.mailbox ep j
    ++ (if bool_decide (j ∈ ServerEndpoint.addressed ids1 ep) then [d1] else [])
    ++ (if bool_decide (j ∈ ServerEndpoint.addressed ids2 ep) then [d2] else []).
Proof.
  destruct (broadcast_unfold d2 ids2 (ServerEndpoint.broadcast d1 ids1 ep))
    as (_ & _ & Hbox2).
  destruct (broadcast_unfold d1 ids1 ep) as (_ & _ & Hbox1).
  rewrite Hbox2, Hbox1, <- app_assoc. f_equal. f_equal.
  - repeat case_decide; case_bool_decide; try done;
      rewrite elem_of_elements in *; tauto.
  - assert (Hsame : ServerEndpoint.addressed ids2 (ServerEndpoint.broadcast d1 ids1 ep)
                    = ServerEndpoint.addressed ids2 ep).
    { apply set_eq. intros i. rewrite !elem_of_addressed.
      by rewrite broadcast_worker_num. }
    rewrite Hsame.
    repeat case_decide; case_bool_decide; try done;
      rewrite elem_of_elements in *; tauto.
Qed.

(** X4: a broadcast that addresses nobody does nothing: with an empty
    collection of worker ids, or on a topology without workers
    ([worker_num] zero or negative), the topology is left as it was. *)
Theorem broadcast_to_nobody data (worker_ids : option (list Z)) ep :
  worker_ids = Some [] ∨ CentralTopology.worker_num ep ≤ 0 →
  ServerEndpoint.broadcast data worker_ids ep = ep.
Proof.
  intros Hnone. unfold ServerEndpoint.broadcast.
  replace (ServerEndpoint.addressed worker_ids ep) with (∅ : gset Z).
  - by rewrite elements_empty.
  - symmetry. apply set_eq. intros j. rewrite elem_of_addressed.
    split; [|set_solver]. intros [Hj Hin].
    destruct Hnone as [-> | Hle]; [by apply elem_of_nil in Hin | lia].
Qed.

End EndpointMore.

Lemma broadcast_ids_as_set_witness :
  let topo := CentralTopology.mk 3 ∅ ∅ ([] : list (Z * nat)) in
  let ep1 := ServerEndpoint.broadcast 5%nat (Some [2; 0; 2; 9]) topo in
  let ep2 := ServerEndpoint.broadcast 5%nat (Some [0; 2; -4]) topo in
  (∀ j, 0 ≤ j < CentralTopology.worker_num topo →
     (j ∈ [2; 0; 2; 9] ↔ j ∈ [0; 2; -4]))
  ∧ (∀ j, CentralTopology.mailbox ep1 j = CentralTopology.mailbox ep2 j)
  ∧ (∀ j, CentralTopology.sends_to ep1 j = CentralTopology.sends_to ep2 j)
  ∧ CentralTopology.mailbox ep1 2 = [5%nat]
  ∧ CentralTopology.mailbox ep1 1 = [].
Proof.
  intros topo ep1 ep2.
  assert (H1 : ∀ j, 0 ≤ j < CentralTopology.worker_num topo →
     (j ∈ [2; 0; 2; 9] ↔ j ∈ [0; 2; -4])).
  { intros j Hj. simpl in Hj. rewrite !elem_of_cons, !elem_of_nil. lia. }
  destruct (broadcast_ids_as_set 5%nat [2; 0; 2; 9] [0; 2; -4] topo H1)
    as (Hbox & Hsends & _).
  split_and!; [exact H1 | exact Hbox | exact Hsends
               | vm_compute; reflexivity | vm_compute; reflexivity].
Defined.

Lemma broadcast_all_named_witness :
  let topo := CentralTopology.mk 3 ∅ ∅ ([] : list (Z * nat)) in
  (∀ j, 0 ≤ j < CentralTopology.worker_num topo → j ∈ [2; 1; 0; 1; 5])
  ∧ ServerEndpoint.broadcast 5%nat (Some [2; 1; 0; 1; 5]) topo
    = ServerEndpoint.broadcast 5%nat None topo.
Proof.
  intros topo.
  assert (H1 : ∀ j, 0 ≤ j < CentralTopology.worker_num topo → j ∈ [2; 1; 0; 1; 5]).
  { intros j Hj. simpl in Hj. rewrite !elem_of_cons. lia. }
  split; [exact H1|].
  exact (broadcast_all_named 5%nat [2; 1; 0; 1; 5] topo H1).
Defined.

Lemma broadcast_to_nobody_witness :
  let topo := CentralTopology.mk 0 ∅ ∅ ([] : list (Z * nat)) in
  ((None : option (list Z)) = Some [] ∨ CentralTopology.worker_num topo ≤ 0)
  ∧ ServerEndpoint.broadcast 5%nat None topo = topo.
Proof.
  intros topo.
  assert (H1 : (None : option (list Z)) = Some [] ∨ CentralTopology.worker_num topo ≤ 0)
    by (right; simpl; lia).
  split; [exact H1|].
  exact (broadcast_to_nobody 5%nat None topo H1).
Defined.

(* ===================================================================== *)
(** ** More about the workers *)
(* ===================================================================== *)

Section WorkerMore.
Context `{Inherited}.
Implicit Types (w : Worker.t) (result : message).

Lemma load_keeps result w :
  let w' := (FedAVGWorker.load_result_from_server result w).2 in
  Worker.round_num w' = Worker.round_num w
  ∧ Worker.to_server w' = Worker.to_server w
  ∧ Worker.from_server w' = Worker.from_server w
  ∧ Worker.send_parameter_diff w' = Worker.send_parameter_diff w.
Proof.
  unfold FedAVGWorker.load_result_from_server.
  case_decide; [by destruct w|].
  unfold bind, or_raise.
  destruct (result !! "parameter") as [[p|n|b]|]; by destruct w.
Qed.

Lemma loop_accounting (msgs : list (option message)) w :
  Worker.from_server w = msgs →
  let w' := (FedAVGWorker.get_result_loop msgs w).2 in
  ∃ (j : nat) (consumed : list (option message)),
    Worker.to_server w' = Worker.to_server w ++ replicate j None
    ∧ Worker.round_num w' = Worker.round_num w + Z.of_nat j
    ∧ msgs = consumed ++ Worker.from_server w'
    ∧ (consumed = replicate j None
       ∨ ∃ result, consumed = replicate j None ++ [Some result]).
Proof.
  revert w. induction msgs as [|[result|] rest IH]; intros w Hfs; cbv zeta.
  - exists 0%nat, []. simpl. rewrite Hfs, Z.add_0_r, app_nil_r. auto.
  - change (FedAVGWorker.get_result_loop (Some result :: rest) w)
      with (FedAVGWorker.load_result_from_server result
              (Worker.set_from_server rest w)).
    destruct (load_keeps result (Worker.set_from_server rest w))
      as (Hr & Hts & Hfr & _).
    exists 0%nat, [Some result]. rewrite Hr, Hts, Hfr. simpl.
    rewrite Z.add_0_r, app_nil_r. split_and!; [by destruct w..| |]; eauto.
  - rewrite get_result_loop_skip by done.
    destruct (skipped_fields 1 w) as (Hr1 & Hts1 & Hfr1 & _).
    rewrite Hfs in Hfr1. change (drop 1 (None :: rest)) with rest in Hfr1.
    destruct (FedAVGWorker._stopped (skipped 1 w)).
    + exists 1%nat, [None]. unfold snd. rewrite Hr1, Hts1, Hfr1. auto.
    + destruct (IH (skipped 1 w) Hfr1) as (j & consumed & Hts & Hr & Hfr & Hc).
      exists (S j), (None :: consumed). rewrite Hts, Hr, Hr1, Hts1.
      split_and!.
      * rewrite <- app_assoc. done.
      * lia.
      * simpl. by rewrite <- Hfr.
      * destruct Hc as [-> | [result ->]]; [by left | right; by exists result].
Qed.

(** X5: whatever [get_result_from_server] ends in (a result applied,
    the stop signal, an error, a blocked wait), it has taken a prefix of
    the channel that consists of some number [j] of skip signals and at
    most one real message behind them, it has sent exactly [j] empty
    updates and nothing else, and it has raised the round counter by
    exactly [j]. *)
Theorem waiting_accounts_for_skips w :
  let w' := (FedAVGWorker.get_result_from_server w).2 in
  ∃ (j : nat) (consumed : list (option message)),
    Worker.to_server w' = Worker.to_server w ++ replicate j None
    ∧ Worker.round_num w' = Worker.round_num w + Z.of_nat j
    ∧ Worker.from_server w = consumed ++ Worker.from_server w'
    ∧ (consumed = replicate j None
       ∨ ∃ result, consumed = replicate j None ++ [Some result]).
Proof. by apply loop_accounting. Qed.

(** X6: a worker that counts as stopped after handling a skip signal
    leaves the waiting loop at once: it has handled that one skip (one
    empty update sent, the counter raised by one), it applies nothing,
    and the messages behind the skip signal stay on the channel. *)
Theorem stopped_worker_leaves_after_skip (rest : list (option message)) w :
  Worker.from_server w = None :: rest →
  FedAVGWorker._stopped (skipped 1 w) = true →
  FedAVGWorker.get_result_from_server w = (Return tt, skipped 1 w)
  ∧ Worker.from_server (skipped 1 w) = rest
  ∧ Worker.history (skipped 1 w) = Worker.history w
  ∧ Worker.trainer_parameter (skipped 1 w) = Worker.trainer_parameter w.
Proof.
  intros Hfs Hstop. unfold FedAVGWorker.get_result_from_server.
  rewrite Hfs, get_result_loop_skip, Hstop by done.
  destruct (skipped_fields 1 w) as (_ & _ & Hfr & _ & Hh & Htp).
  rewrite Hfr, Hfs. done.
Qed.

(** X7: a result that holds neither ["end_training"] nor ["parameter"]
    makes the worker fail with [KeyError]: the message is taken off the
    channel, but nothing is applied, nothing is sent and the stop flag
    stays as it was. *)
Theorem malformed_result_is_key_error result (rest : list (option message)) w :
  Worker.from_server w = Some result :: rest →
  result !! "end_training" = None →
  result !! "parameter" = None →
  FedAVGWorker.get_result_from_server w
  = (Raise KeyError, Worker.set_from_server rest w).
Proof.
  intros Hfs Hend Hpar. unfold FedAVGWorker.get_result_from_server. rewrite Hfs.
  change (FedAVGWorker.get_result_loop (Some result :: rest) w)
    with (FedAVGWorker.load_result_from_server result
            (Worker.set_from_server rest w)).
  unfold FedAVGWorker.load_result_from_server.
  rewrite decide_False by (rewrite Hend; by intros [? ?]).
  unfold bind, or_raise. by rewrite Hpar.
Qed.

(** X8: with the parameter diff switched on, [_aggretation] of a message
    without a ["parameter"] entry fails with [KeyError] before anything
    is sent or received: the worker is left as it was. *)
Theorem aggregation_needs_parameter (sent_data : message) w :
  Worker.send_parameter_diff w = true →
  sent_data !! "parameter" = None →
  FedAVGWorker._aggretation sent_data w = (Raise KeyError, w).
Proof.
  intros Hflag Hpar. unfold FedAVGWorker._aggretation.
  unfold bind, get, or_raise. by rewrite Hflag, Hpar.
Qed.

(** X9: with the parameter diff switched on, the message that
    [_aggretation] sends is the given one with the ["parameter"] entry
    taken out and the diff that the model cache computes for it put
    under ["parameter_diff"]; the other entries are sent as given, and
    the worker then waits for the server. *)
Theorem aggregation_sends_diff (sent_data : message) (p d : ParameterDict) w :
  Worker.send_parameter_diff w = true →
  sent_data !! "parameter" = Some (VParameter p) →
  ModelCache.get_parameter_diff_from (Worker.cached_parameter_dict w) p = Some d →
  let msg : message :=
    <["parameter_diff" := VParameter d]> (delete "parameter" sent_data) in
  FedAVGWorker._aggretation sent_data w
  = FedAVGWorker.get_result_from_server
      (Worker.set_to_server (Worker.to_server w ++ [Some msg]) w)
  ∧ msg !! "parameter" = None
  ∧ (∀ k, k ≠ "parameter" → k ≠ "parameter_diff" → msg !! k = sent_data !! k)
  ∧ Worker.to_server (FedAVGWorker._aggretation sent_data w).2
      !! length (Worker.to_server w) = Some (Some msg).
Proof.
  intros Hflag Hpar Hdiff msg.
  assert (Hrun : FedAVGWorker._aggretation sent_data w
    = FedAVGWorker.get_result_from_server
        (Worker.set_to_server (Worker.to_server w ++ [Some msg]) w)).
  { unfold FedAVGWorker._aggretation.
    unfold bind at 1. unfold get at 1. rewrite Hflag.
    unfold bind at 1. unfold bind at 1. unfold or_raise at 1. rewrite Hpar.
    unfold ret at 1. cbv beta iota.
    unfold bind at 1. unfold ModelCache.get_parameter_diff, bind at 1.
    unfold get at 1. rewrite Hdiff. reflexivity. }
  split_and!; [exact Hrun | | |].
  - unfold msg. rewrite lookup_insert_ne by done. apply lookup_delete_eq.
  - intros k Hk1 Hk2. unfold msg.
    rewrite lookup_insert_ne by done. by rewrite lookup_delete_ne.
  - rewrite Hrun. unfold FedAVGWorker.get_result_from_server.
    destruct (loop_to_server
                (Worker.from_server
                   (Worker.set_to_server (Worker.to_server w ++ [Some msg]) w))
                (Worker.set_to_server (Worker.to_server w ++ [Some msg]) w))
      as [more Hmore].
    rewrite Hmore.
    replace (Worker.to_server
               (Worker.set_to_server (Worker.to_server w ++ [Some msg]) w))
      with (Worker.to_server w ++ [Some msg]) by (by destruct w).
    rewrite <- app_assoc. by apply list_lookup_middle.
Qed.

End WorkerMore.

(* ===================================================================== *)
(** ** More about the dropout worker *)
(* ===================================================================== *)

Section DropoutMore.
Context `{Inherited}.
Implicit Types (w : Worker.t) (p : ParameterDict) (v : tensor).

Lemma length_masked rate v pos :
  length (tensor_mul v (FedDropoutAvgWorker.bernoulli_like rate v pos)) = length v.
Proof.
  unfold tensor_mul. rewrite length_zip_with.
  destruct (is_mask_bernoulli_like rate v pos) as [_ ->]. lia.
Qed.

(** X10: masking keeps the shape of the parameters: the masked
    dictionary has the same keys in the same order, every tensor keeps
    its length, and the generator is advanced by one draw per element. *)
Theorem mask_keeps_shape (rate : Q) p (pos : nat) :
  (FedDropoutAvgWorker.mask_parameter rate p pos).1.*1 = p.*1
  ∧ Forall2 (λ kv kv', length kv'.2 = length kv.2) p
      (FedDropoutAvgWorker.mask_parameter rate p pos).1
  ∧ (FedDropoutAvgWorker.mask_parameter rate p pos).2 = (pos + numel p)%nat.
Proof.
  revert pos. induction p as [|[k v] rest IH]; intros pos; simpl.
  - split_and!; [done | constructor | lia].
  - destruct (IH (pos + length v)%nat) as (Hk & Hl & Hp).
    destruct (FedDropoutAvgWorker.mask_parameter rate rest (pos + length v)%nat)
      as [rest' pos'].
    simpl in *. split_and!.
    + by f_equal.
    + constructor; [apply length_masked | done].
    + lia.
Qed.

Lemma constant_mask (b : bool) rate v pos :
  (∀ i, torch_bernoulli (1 - rate)%Q i = b) →
  Forall2 (λ x y, if b then Qeq y x else Qeq y 0) v
    (tensor_mul v (FedDropoutAvgWorker.bernoulli_like rate v pos)).
Proof.
  intros Hconst. unfold FedDropoutAvgWorker.bernoulli_like, tensor_mul.
  generalize 0%nat as start. induction v as [|x v IH]; intros start; simpl.
  - constructor.
  - constructor; [|apply IH]. rewrite Hconst.
    destruct b; [apply Qmult_1_r | apply Qmult_0_r].
Qed.

(** X11: when every draw of the generator comes out the same, the mask
    is trivial: if all draws keep, every element sent equals the trained
    element, and if all draws drop, every element sent is zero; the keys
    stay in both cases. *)
Theorem mask_with_constant_draws (b : bool) (rate : Q) p (pos : nat) :
  (∀ i, torch_bernoulli (1 - rate)%Q i = b) →
  Forall2 (λ kv kv', kv.1 = kv'.1
                     ∧ Forall2 (λ x y, if b then Qeq y x else Qeq y 0) kv.2 kv'.2)
    p (FedDropoutAvgWorker.mask_parameter rate p pos).1.
Proof.
  intros Hconst. revert pos. induction p as [|[k v] rest IH]; intros pos; simpl.
  - constructor.
  - specialize (IH (pos + length v)%nat).
    destruct (FedDropoutAvgWorker.mask_parameter rate rest (pos + length v)%nat)
      as [rest' pos'].
    simpl in *. constructor; [|done]. split; [done|]. by apply constant_mask.
Qed.

Lemma count_nonzero_bounds (t : tensor) :
  0 ≤ DropoutCounters.count_nonzero t ≤ Z.of_nat (length t).
Proof.
  unfold DropoutCounters.count_nonzero.
  split; [lia|]. apply Nat2Z.inj_le, length_filter.
Qed.

(** X12: the counters that the dropout worker logs belong to the mask it
    sends: the loop with the counters builds the same masked dictionary
    and takes the same draws, [total_num] grows by the number of
    elements, and [send_num] grows by at least zero and at most that
    number, so that from zero [send_num] never exceeds [total_num]. *)
Theorem logged_counters_bounded (rate : Q) p (pos : nat) (total_num send_num : Z) :
  let r := DropoutCounters.mask_and_count rate p pos total_num send_num in
  r.1 = FedDropoutAvgWorker.mask_parameter rate p pos
  ∧ r.2.1 = total_num + Z.of_nat (numel p)
  ∧ send_num ≤ r.2.2 ≤ send_num + Z.of_nat (numel p).
Proof.
  revert pos total_num send_num.
  induction p as [|[k v] rest IH]; intros pos total_num send_num; simpl.
  - split_and!; [done | lia | lia | lia].
  - set (masked := tensor_mul v (FedDropoutAvgWorker.bernoulli_like rate v pos)).
    specialize (IH (pos + length v)%nat
                  (total_num + Z.of_nat (length masked))
                  (send_num + DropoutCounters.count_nonzero masked)).
    destruct (DropoutCounters.mask_and_count rate rest (pos + length v)%nat _ _)
      as [[rest' pos'] [t s]].
    destruct (FedDropoutAvgWorker.mask_parameter rate rest (pos + length v)%nat)
      as [rest'' pos''].
    simpl in *. destruct IH as (Heq & Ht & Hs1 & Hs2).
    injection Heq as -> ->.
    pose proof (count_nonzero_bounds masked) as Hc.
    assert (Hlen : length masked = length v) by apply length_masked.
    rewrite Hlen in *. split_and!; [done | lia | lia | lia].
Qed.

(** *** Whole runs of a dropout worker *)

Lemma dropout_get_sent_data_post w :
  let r := FedDropoutAvgWorker._get_sent_data w in
  Worker.to_server r.2 = Worker.to_server w
  ∧ Worker.send_parameter_diff r.2 = false
  ∧ ∀ msg, r.1 = Return msg →
      is_Some (msg !! "parameter")
      ∧ msg !! "parameter_diff"
        = aggregation_get_sent_data (Worker.set_send_parameter_diff false w)
            !! "parameter_diff".
Proof.
  unfold FedDropoutAvgWorker._get_sent_data, FedAVGWorker._get_sent_data.
  unfold bind, modify, get, ret, or_raise.
  set (w1 := Worker.set_send_parameter_diff false w).
  set (sent0 := <["dataset_size" := VInt (Worker.dataset_size w1)]>
                  (aggregation_get_sent_data w1)).
  destruct (sent0 !! "parameter") as [[p|n|b]|] eqn:Hpar; unfold raise; simpl;
    try (split_and!; [by destruct w | by destruct w | intros ? ?; done]).
  destruct (FedDropoutAvgWorker.mask_parameter _ _ _) as [masked pos'].
  simpl. split_and!; [by destruct w | by destruct w |].
  intros msg Hmsg. injection Hmsg as <-. split.
  - rewrite lookup_insert_eq. eauto.
  - unfold sent0. by rewrite !lookup_insert_ne.
Qed.

Lemma aggretation_flag_off (sent_data : message) w :
  Worker.send_parameter_diff w = false →
  FedAVGWorker._aggretation sent_data w
  = FedAVGWorker.get_result_from_server
      (Worker.set_to_server (Worker.to_server w ++ [Some sent_data]) w).
Proof.
  intros Hflag. unfold FedAVGWorker._aggretation.
  unfold bind, get, Client.send_data_to_server, modify. by rewrite Hflag.
Qed.

Lemma dropout_hook_sends w :
  (∀ w0, aggregation_get_sent_data w0 !! "parameter_diff" = None) →
  ∃ sent, Worker.to_server
            (WorkerRun.aggregation_hook WorkerRun.FedDropoutAvg w).2
          = Worker.to_server w ++ sent
          ∧ Forall diff_free sent.
Proof.
  intros Hbase. unfold WorkerRun.aggregation_hook. simpl. unfold bind at 1.
  destruct (dropout_get_sent_data_post w) as (Hts & Hflag & Hmsg).
  destruct (FedDropoutAvgWorker._get_sent_data w) as [[msg|e|] w2]; simpl in *.
  - rewrite aggretation_flag_off by done.
    destruct (loop_accounting
                (Worker.from_server
                   (Worker.set_to_server (Worker.to_server w2 ++ [Some msg]) w2))
                (Worker.set_to_server (Worker.to_server w2 ++ [Some msg]) w2)
                eq_refl)
      as (j & _ & Hsent & _).
    unfold FedAVGWorker.get_result_from_server. rewrite Hsent.
    replace (Worker.to_server
               (Worker.set_to_server (Worker.to_server w2 ++ [Some msg]) w2))
      with (Worker.to_server w2 ++ [Some msg]) by (by destruct w2).
    rewrite Hts, <- app_assoc. eexists. split; [done|].
    apply Forall_app. split.
    + constructor; [|constructor]. destruct (Hmsg msg eq_refl) as [Hp Hd].
      split; [done|]. by rewrite Hd.
    + apply Forall_replicate. done.
  - exists []. by rewrite app_nil_r.
  - exists []. by rewrite app_nil_r.
Qed.

(** X13: over a whole run of a dropout worker, of any number of rounds
    and whatever the server answers, every message the worker sends is
    an empty update or a dictionary with a ["parameter"] entry and
    without a ["parameter_diff"] entry, provided the message of the base
    class has no ["parameter_diff"] entry of its own. *)
Theorem dropout_run_never_sends_diff (trained : list ParameterDict) w :
  (∀ w0, aggregation_get_sent_data w0 !! "parameter_diff" = None) →
  ∃ sent, Worker.to_server (WorkerRun.train WorkerRun.FedDropoutAvg trained w).2
          = Worker.to_server w ++ sent
          ∧ Forall diff_free sent.
Proof.
  intros Hbase. revert w. induction trained as [|p rest IH]; intros w.
  - exists []. simpl. by rewrite app_nil_r.
  - simpl. unfold bind at 1. unfold modify at 1. unfold bind at 1.
    destruct (dropout_hook_sends (Worker.set_trainer_parameter p w) Hbase)
      as (sent1 & Hs1 & Hf1).
    replace (Worker.to_server (Worker.set_trainer_parameter p w))
      with (Worker.to_server w) in Hs1 by (by destruct w).
    destruct (WorkerRun.aggregation_hook WorkerRun.FedDropoutAvg
                (Worker.set_trainer_parameter p w)) as [[[]|e|] w1]; simpl in *.
    + destruct (IH w1) as (sent2 & Hs2 & Hf2).
      exists (sent1 ++ sent2). rewrite Hs2, Hs1, <- app_assoc.
      split; [done|]. by apply Forall_app.
    + by exists sent1.
    + by exists sent1.
Qed.

End DropoutMore.

(* ===================================================================== *)
(** ** The further worker theorems on sample workers *)
(* ===================================================================== *)

Lemma stopped_worker_leaves_after_skip_witness :
  let rest := [Some (Samples.parameter_result [("w", [2%Q; 2%Q])])] in
  let w := Worker.set_stopped true (Samples.worker (None :: rest)) in
  Worker.from_server w = None :: rest
  ∧ @FedAVGWorker._stopped Samples.inherited (skipped 1 w) = true
  ∧ @FedAVGWorker.get_result_from_server Samples.inherited w
    = (Return tt, skipped 1 w).
Proof.
  intros rest w.
  assert (H1 : Worker.from_server w = None :: rest) by reflexivity.
  assert (H2 : @FedAVGWorker._stopped Samples.inherited (skipped 1 w) = true)
    by reflexivity.
  split_and!; [exact H1 | exact H2 |].
  exact (proj1 (@stopped_worker_leaves_after_skip Samples.inherited rest w H1 H2)).
Defined.

Lemma malformed_result_is_key_error_witness :
  let w := Samples.worker [Some MoreSamples.malformed; None] in
  Worker.from_server w = [Some MoreSamples.malformed; None]
  ∧ MoreSamples.malformed !! "end_training" = None
  ∧ MoreSamples.malformed !! "parameter" = None
  ∧ @FedAVGWorker.get_result_from_server Samples.inherited w
    = (Raise KeyError, Worker.set_from_server [None] w).
Proof.
  intros w.
  assert (H1 : Worker.from_server w = [Some MoreSamples.malformed; None])
    by reflexivity.
  assert (H2 : MoreSamples.malformed !! "end_training" = (None : option value))
    by reflexivity.
  assert (H3 : MoreSamples.malformed !! "parameter" = (None : option value))
    by reflexivity.
  split_and!; [exact H1 | exact H2 | exact H3 |].
  exact (@malformed_result_is_key_error Samples.inherited
           MoreSamples.malformed [None] w H1 H2 H3).
Defined.

Lemma aggregation_needs_parameter_witness :
  let w := Samples.worker [] in
  Worker.send_parameter_diff w = true
  ∧ MoreSamples.malformed !! "parameter" = None
  ∧ @FedAVGWorker._aggretation Samples.inherited MoreSamples.malformed w
    = (Raise KeyError, w).
Proof.
  intros w.
  assert (H1 : Worker.send_parameter_diff w = true) by reflexivity.
  assert (H2 : MoreSamples.malformed !! "parameter" = (None : option value))
    by reflexivity.
  split_and!; [exact H1 | exact H2 |].
  exact (@aggregation_needs_parameter Samples.inherited
           MoreSamples.malformed w H1 H2).
Defined.

Lemma aggregation_sends_diff_witness :
  let w := Samples.worker [] in
  let sent_data : message :=
    {["parameter" := VParameter [("w", [3%Q; 5%Q])]; "dataset_size" := VInt 10]} in
  Worker.send_parameter_diff w = true
  ∧ sent_data !! "parameter" = Some (VParameter [("w", [3%Q; 5%Q])])
  ∧ ModelCache.get_parameter_diff_from (Worker.cached_parameter_dict w)
      [("w", [3%Q; 5%Q])]
    = Some [("w", [(3 - 1)%Q; (5 - 1)%Q])]
  ∧ Worker.to_server
      (@FedAVGWorker._aggretation Samples.inherited sent_data w).2 !! 0%nat
    = Some (Some (<["parameter_diff" := VParameter [("w", [(3 - 1)%Q; (5 - 1)%Q])]]>
                    (delete "parameter" sent_data))).
Proof.
  intros w sent_data.
  assert (H1 : Worker.send_parameter_diff w = true) by reflexivity.
  assert (H2 : sent_data !! "parameter" = Some (VParameter [("w", [3%Q; 5%Q])]))
    by reflexivity.
  assert (H3 : ModelCache.get_parameter_diff_from (Worker.cached_parameter_dict w)
      [("w", [3%Q; 5%Q])] = Some [("w", [(3 - 1)%Q; (5 - 1)%Q])]) by reflexivity.
  split_and!; [exact H1 | exact H2 | exact H3 |].
  exact (proj2 (proj2 (proj2
    (@aggregation_sends_diff Samples.inherited sent_data _ _ w H1 H2 H3)))).
Defined.

Lemma mask_with_constant_draws_witness :
  (∀ i, @torch_bernoulli MoreSamples.keep_all (1 - (1 # 2))%Q i = true)
  ∧ Forall2 (λ kv kv', kv.1 = kv'.1 ∧ Forall2 (λ x y, Qeq y x) kv.2 kv'.2)
      [("w", [3%Q; 5%Q])]
      (@FedDropoutAvgWorker.mask_parameter MoreSamples.keep_all (1 # 2)%Q
         [("w", [3%Q; 5%Q])] 0).1.
Proof.
  assert (H1 : ∀ i, @torch_bernoulli MoreSamples.keep_all (1 - (1 # 2))%Q i = true)
    by (intros i; reflexivity).
  split; [exact H1|].
  exact (@mask_with_constant_draws MoreSamples.keep_all true (1 # 2)%Q
           [("w", [3%Q; 5%Q])] 0%nat H1).
Defined.

Lemma dropout_run_never_sends_diff_witness :
  let w := Samples.worker
             [None; Some (Samples.parameter_result [("w", [2%Q; 2%Q])]);
              Some Samples.end_training] in
  let trained := [[("w", [3%Q; 5%Q])]; [("w", [6%Q; 7%Q])]] in
  (∀ w0, @aggregation_get_sent_data Samples.inherited w0 !! "parameter_diff" = None)
  ∧ ∃ sent,
      Worker.to_server
        (@WorkerRun.train Samples.inherited WorkerRun.FedDropoutAvg trained w).2
      = Worker.to_server w ++ sent
      ∧ Forall diff_free sent.
Proof.
  intros w trained.
  assert (H1 : ∀ w0, @aggregation_get_sent_data Samples.inherited w0
                       !! "parameter_diff" = None)
    by (intros w0; reflexivity).
  split; [exact H1|].
  exact (@dropout_run_never_sends_diff Samples.inherited trained w H1).
Defined.

(* ===================================================================== *)
(** ** More about the Shapley-value server *)
(* ===================================================================== *)

Section ServerMore.
Context `{ServerInherited}.
Implicit Types (s : Server.t) (data : worker_data) (subset : gset Z).

(** With an estimator at hand the first part of the aggregation is the
    call of [compute], the update of the estimator and the choice. *)
Lemma final_worker_data_later s data (sv0 : MultiRoundShapleyValue.t) :
  Server.sv_algorithm s = Some sv0 →
  MultiRoundShapleyValueServer.final_worker_data data s
  = match sv_compute
            (λ subset, MultiRoundShapleyValueServer._get_subset_metric s subset data)
            sv0 with
    | Return sv =>
        let s' := Server.set_sv_algorithm (Some sv) s in
        if Server.choose_best_subset s then
          match MultiRoundShapleyValue.shapley_values_S sv
                  !! MultiRoundShapleyValue.round_number sv with
          | Some values =>
              (Return (if decide (dom values ≠ ∅)
                       then MultiRoundShapleyValueServer.restrict (dom values) data
                       else data), s')
          | None => (Raise KeyError, s')
          end
        else (Return data, s')
    | Raise e => (Raise e, s)
    | Blocked => (Blocked, s)
    end.
Proof.
  intros Hsv. unfold MultiRoundShapleyValueServer.final_worker_data.
  unfold bind at 1. unfold get at 1. rewrite Hsv.
  unfold bind at 1. unfold ret at 1. unfold bind at 1. unfold get at 1.
  unfold bind at 1. unfold lift.
  destruct (sv_compute _ sv0) as [sv|e|]; [|done..].
  unfold bind at 1. unfold modify.
  destruct (Server.choose_best_subset s); [|done].
  unfold bind, or_raise.
  destruct (MultiRoundShapleyValue.shapley_values_S sv !! _) as [values|]; [|done].
  unfold ret. by destruct (decide (dom values ≠ ∅)).
Qed.


(** X15: the metric of a subset depends only on the workers of the
    subset that sent data: ids without data in the round make no
    difference. *)
Theorem subset_metric_ignores_absent s subset data :
  MultiRoundShapleyValueServer._get_subset_metric s subset data
  = MultiRoundShapleyValueServer._get_subset_metric s (subset ∩ dom data) data.
Proof.
  unfold MultiRoundShapleyValueServer._get_subset_metric.
  replace (MultiRoundShapleyValueServer.restrict (subset ∩ dom data) data)
    with (MultiRoundShapleyValueServer.restrict subset data); [done|].
  unfold MultiRoundShapleyValueServer.restrict. apply map_eq. intros i.
  apply option_eq. intros x. rewrite !map_lookup_filter_Some. simpl.
  rewrite elem_of_intersection, elem_of_dom. unfold is_Some. naive_solver.
Qed.

(** X16: the metric function handed to the estimator is bound to the
    worker data of the round.  If the estimator, while it computes,
    scores a subset none of whose workers has sent data in this round and
    lets the failure of the metric function pass, the aggregation of the
    round fails with [AssertionError]: the base aggregation of the
    round is not reached and no parameters are returned.  Nothing is said
    about the state in which the failed computation leaves the
    estimator. *)
Theorem failed_estimate_aborts_round s data (sv0 : MultiRoundShapleyValue.t)
    (subset : gset Z) :
  Server.sv_algorithm s = Some sv0 →
  dom data ∩ subset = ∅ →
  (∀ f : gset Z → outcome Q,
     f subset = Raise AssertionError → sv_compute f sv0 = Raise AssertionError) →
  (MultiRoundShapleyValueServer._aggregate_worker_data data s).1
  = Raise AssertionError.
Proof.
  intros Hsv Hdisj Hpass.
  unfold MultiRoundShapleyValueServer._aggregate_worker_data.
  unfold bind at 1. rewrite (final_worker_data_later _ _ sv0) by done.
  rewrite Hpass; [done|].
  unfold MultiRoundShapleyValueServer._get_subset_metric.
  apply restrict_empty_iff in Hdisj. by rewrite decide_True.
Qed.

(** X17: with best-subset choice switched on, an estimator that records
    no best subset for its current round makes the aggregation fail with
    [KeyError]; the estimator has been updated by then, but nothing is
    aggregated. *)
Theorem missing_best_subset_is_key_error s data (sv0 sv : MultiRoundShapleyValue.t) :
  Server.choose_best_subset s = true →
  Server.sv_algorithm s = Some sv0 →
  sv_compute (λ subset, MultiRoundShapleyValueServer._get_subset_metric s subset data)
             sv0 = Return sv →
  MultiRoundShapleyValue.shapley_values_S sv
    !! MultiRoundShapleyValue.round_number sv = None →
  MultiRoundShapleyValueServer._aggregate_worker_data data s
  = (Raise KeyError, Server.set_sv_algorithm (Some sv) s).
Proof.
  intros Hflag Hsv Hcompute Hnone.
  unfold MultiRoundShapleyValueServer._aggregate_worker_data.
  unfold bind at 1. rewrite (final_worker_data_later _ _ sv0) by done.
  rewrite Hcompute. cbv zeta. by rewrite Hflag, Hnone.
Qed.


End ServerMore.


Lemma failed_estimate_aborts_round_witness :
  let sv0 := MultiRoundShapleyValue.mk 3 1%Q 1 ∅ ∅ in
  Server.sv_algorithm ServerSamples.later = Some sv0
  ∧ dom ServerSamples.only_one ∩ ({[0; 2]} : gset Z) = ∅
  ∧ (∀ f : gset Z → outcome Q,
       f {[0; 2]} = Raise AssertionError →
       @sv_compute Samples.server_inherited f sv0 = Raise AssertionError)
  ∧ (@MultiRoundShapleyValueServer._aggregate_worker_data
       Samples.server_inherited ServerSamples.only_one ServerSamples.later).1
    = Raise AssertionError.
Proof.
  intros sv0.
  assert (H1 : Server.sv_algorithm ServerSamples.later = Some sv0) by reflexivity.
  assert (H2 : dom ServerSamples.only_one ∩ ({[0; 2]} : gset Z) = ∅)
    by (vm_compute; reflexivity).
  assert (H3 : ∀ f : gset Z → outcome Q,
       f {[0; 2]} = Raise AssertionError →
       @sv_compute Samples.server_inherited f sv0 = Raise AssertionError).
  { intros f Hf. simpl. by rewrite Hf. }
  split_and!; [exact H1 | exact H2 | exact H3 |].
  exact (@failed_estimate_aborts_round Samples.server_inherited
           ServerSamples.later ServerSamples.only_one sv0 {[0; 2]} H1 H2 H3).
Defined.

Lemma missing_best_subset_is_key_error_witness :
  let sv0 := MultiRoundShapleyValue.mk 3 1%Q 1 ∅ ∅ in
  let sv := MultiRoundShapleyValue.mk 3 1%Q 2 ∅ ∅ in
  Server.choose_best_subset ServerSamples.later = true
  ∧ Server.sv_algorithm ServerSamples.later = Some sv0
  ∧ @sv_compute ServerSamples.no_best
      (λ subset, @MultiRoundShapleyValueServer._get_subset_metric
                   ServerSamples.no_best ServerSamples.later subset
                   Samples.received) sv0 = Return sv
  ∧ MultiRoundShapleyValue.shapley_values_S sv
      !! MultiRoundShapleyValue.round_number sv = None
  ∧ @MultiRoundShapleyValueServer._aggregate_worker_data
      ServerSamples.no_best Samples.received ServerSamples.later
    = (Raise KeyError, Server.set_sv_algorithm (Some sv) ServerSamples.later).
Proof.
  intros sv0 sv.
  assert (H1 : Server.choose_best_subset ServerSamples.later = true) by reflexivity.
  assert (H2 : Server.sv_algorithm ServerSamples.later = Some sv0) by reflexivity.
  assert (H3 : @sv_compute ServerSamples.no_best
      (λ subset, @MultiRoundShapleyValueServer._get_subset_metric
                   ServerSamples.no_best ServerSamples.later subset
                   Samples.received) sv0 = Return sv) by reflexivity.
  assert (H4 : MultiRoundShapleyValue.shapley_values_S sv
      !! MultiRoundShapleyValue.round_number sv = None) by reflexivity.
  split_and!; [exact H1 | exact H2 | exact H3 | exact H4 |].
  exact (@missing_best_subset_is_key_error ServerSamples.no_best
           ServerSamples.later Samples.received sv0 sv H1 H2 H3 H4).
Defined.


(* ===================================================================== *)
(** ** More about the orchestration *)
(* ===================================================================== *)

Section OrchestrationMore.
Implicit Types (w : World.t) (h : host) (cfg : DistributedTrainingConfig).

Lemma collect_workers (worker_ids : list Z) (rest : list StartExecutors.role)
    (res : stats) :
  StartExecutors.collect ((StartExecutors.AWorker <$> worker_ids) ++ rest) res
  = StartExecutors.collect rest res.
Proof. induction worker_ids as [|i ids IH]; simpl; auto. Qed.

(** X19: a unit that hosts workers only contributes an empty result,
    however many workers it ran. *)
Theorem worker_unit_contributes_nothing (worker_ids : list Z) :
  StartExecutors.result worker_ids None = Return ∅.
Proof.
  unfold StartExecutors.result. by rewrite collect_workers.
Qed.

(** X20: the unit that hosts a server with an estimator returns the
    metrics of the server's current round, each under its name, and the
    Shapley values under ["sv"], unless the metrics of the round have an
    entry ["sv"] themselves, which then takes the place of the table. *)
Theorem server_unit_result (worker_ids : list Z) (s : StartExecutors.server)
    (sv : MultiRoundShapleyValue.t) (stat : gmap string Q) :
  StartExecutors.sv_attr s = Some (Some sv) →
  StartExecutors.performance_stat s !! StartExecutors.round_number s = Some stat →
  ∃ res, StartExecutors.result worker_ids (Some s) = Return res
    ∧ (∀ k, k ≠ "sv" → res !! k = SMetric <$> stat !! k)
    ∧ res !! "sv"
      = Some (match stat !! "sv" with
              | Some q => SMetric q
              | None => SShapley (MultiRoundShapleyValue.shapley_values sv)
              end)
    ∧ dom res = dom stat ∪ {["sv"]}.
Proof.
  intros Hsv Hstat. unfold StartExecutors.result.
  rewrite collect_workers. simpl. rewrite Hsv, Hstat. eexists. split; [done|].
  split_and!.
  - intros k Hk. rewrite lookup_union, lookup_fmap, lookup_insert_ne by done.
    rewrite lookup_empty. by destruct (stat !! k).
  - rewrite lookup_union, lookup_fmap, lookup_insert_eq.
    by destruct (stat !! "sv").
  - rewrite dom_union_L, dom_fmap_L, dom_insert_L. set_solver.
Qed.

(** X21: the result assembly fails for a server whose estimator
    attribute is still [None], with [AttributeError], and otherwise for
    a server that has no metrics for its current round, with
    [KeyError]. *)
Theorem server_unit_errors (worker_ids : list Z) (s : StartExecutors.server) :
  StartExecutors.sv_attr s = Some None
  ∨ StartExecutors.performance_stat s !! StartExecutors.round_number s = None →
  StartExecutors.result worker_ids (Some s)
  = Raise (match StartExecutors.sv_attr s with
           | Some None => AttributeError
           | _ => KeyError
           end).
Proof.
  intros Hbad. unfold StartExecutors.result. rewrite collect_workers. simpl.
  destruct (StartExecutors.sv_attr s) as [[sv|]|] eqn:Hsv.
  - destruct Hbad as [Hb|Hb]; [done | by rewrite Hb].
  - done.
  - destruct Hbad as [Hb|Hb]; [done | by rewrite Hb].
Qed.

Lemma merge_from_app (rs1 rs2 : list stats) (acc : stats) :
  foldl (λ tmp_stats result, result ∪ tmp_stats) acc (rs1 ++ rs2)
  = foldl (λ tmp_stats result, result ∪ tmp_stats)
      (foldl (λ tmp_stats result, result ∪ tmp_stats) acc rs1) rs2.
Proof. apply foldl_app. Qed.

(** X22: on a key that several units return, the result of the unit
    merged last wins; a key that the last unit lacks keeps what the
    units before it gave. *)
Theorem merge_last_wins (results : list stats) (last_result : stats) (k : string) :
  Training.merge_results (results ++ [last_result]) !! k
  = match last_result !! k with
    | Some v => Some v
    | None => Training.merge_results results !! k
    end.
Proof.
  unfold Training.merge_results. rewrite merge_from_app. simpl.
  rewrite lookup_union. by destruct (last_result !! k), (foldl _ _ _ !! k).
Qed.

Lemma merge_from_skip_empty (results : list stats) (acc : stats) :
  foldl (λ tmp_stats result, result ∪ tmp_stats) acc
    (filter (λ r, r ≠ ∅) results)
  = foldl (λ tmp_stats result, result ∪ tmp_stats) acc results.
Proof.
  revert acc. induction results as [|r rs IH]; intros acc; [done|].
  rewrite filter_cons. destruct (decide (r ≠ ∅)) as [Hr|Hr]; simpl.
  - apply IH.
  - apply dec_stable in Hr. subst r. rewrite IH.
    by rewrite (left_id_L ∅ (∪)).
Qed.

(** X23: the units that host workers only make no difference to the
    merged statistics: merging the results of all units gives what
    merging the non-empty ones gives. *)
Theorem empty_results_do_not_count (results : list stats) :
  Training.merge_results results
  = Training.merge_results (filter (λ r, r ≠ ∅) results).
Proof. unfold Training.merge_results. by rewrite merge_from_skip_empty. Qed.

End OrchestrationMore.

Lemma server_unit_result_witness :
  let sv := MultiRoundShapleyValue.mk 3 1%Q 2
              {[1 := {[0 := (1 # 10)%Q; 1 := (2 # 10)%Q; 2 := (3 # 10)%Q]}]} ∅ in
  let stat : gmap string Q := {["acc" := (9 # 10)%Q]} in
  StartExecutors.sv_attr OrchestrationSamples.server = Some (Some sv)
  ∧ StartExecutors.performance_stat OrchestrationSamples.server
      !! StartExecutors.round_number OrchestrationSamples.server = Some stat
  ∧ ∃ res,
      StartExecutors.result [0; 1] (Some OrchestrationSamples.server) = Return res
      ∧ res !! "sv"
        = Some (SShapley (MultiRoundShapleyValue.shapley_values sv)).
Proof.
  intros sv stat.
  assert (H1 : StartExecutors.sv_attr OrchestrationSamples.server = Some (Some sv))
    by reflexivity.
  assert (H2 : StartExecutors.performance_stat OrchestrationSamples.server
      !! StartExecutors.round_number OrchestrationSamples.server = Some stat)
    by reflexivity.
  split_and!; [exact H1 | exact H2 |].
  destruct (server_unit_result [0; 1] OrchestrationSamples.server sv stat H1 H2)
    as (res & Hres & _ & Hsv & _).
  exists res. split; [exact Hres | exact Hsv].
Defined.

Lemma server_unit_errors_witness :
  (StartExecutors.sv_attr OrchestrationSamples.fresh = Some None
   ∨ StartExecutors.performance_stat OrchestrationSamples.fresh
       !! StartExecutors.round_number OrchestrationSamples.fresh = None)
  ∧ StartExecutors.result [0; 1] (Some OrchestrationSamples.fresh)
    = Raise AttributeError.
Proof.
  assert (H1 : StartExecutors.sv_attr OrchestrationSamples.fresh = Some None
   ∨ StartExecutors.performance_stat OrchestrationSamples.fresh
       !! StartExecutors.round_number OrchestrationSamples.fresh = None)
    by (left; reflexivity).
  split; [exact H1|].
  exact (server_unit_errors [0; 1] OrchestrationSamples.fresh H1).
Defined.

(* ===================================================================== *)
(** ** When the remapping of the Shapley tables succeeds *)
(* ===================================================================== *)

Section RemapMore.
Implicit Types (w : World.t) (ids : gset Z) (n : Z).

Lemma length_sorted ids : length (Training.sorted ids) = size ids.
Proof. unfold Training.sorted. by rewrite merge_sort_Permutation. Qed.

Lemma remap_round_missing (pairs : list (Z * Z)) (tmp acc : gmap Z Q) pid wid :
  (pid, wid) ∈ pairs → tmp !! wid = None →
  Training.remap_round pairs tmp acc = Raise KeyError.
Proof.
  revert acc. induction pairs as [|[pid0 wid0] pairs IH]; intros acc Hin Hnone.
  - by apply elem_of_nil in Hin.
  - simpl. destruct (tmp !! wid0) as [v|] eqn:Hv; [|done].
    apply elem_of_cons in Hin as [Heq|Hin]; [|by apply IH].
    injection Heq as -> ->. congruence.
Qed.

Lemma remap_round_total (pairs : list (Z * Z)) (tmp acc : gmap Z Q) :
  (∀ pid wid, (pid, wid) ∈ pairs → is_Some (tmp !! wid)) →
  ∃ row, Training.remap_round pairs tmp acc = Return row.
Proof.
  revert acc. induction pairs as [|[pid0 wid0] pairs IH]; intros acc Hall.
  - by exists acc.
  - simpl. destruct (Hall pid0 wid0) as [v ->]; [by left|].
    apply IH. intros pid wid Hin. apply (Hall pid). by right.
Qed.

Lemma remap_round_outcome (pairs : list (Z * Z)) (tmp acc : gmap Z Q) :
  (∃ row, Training.remap_round pairs tmp acc = Return row)
  ∨ Training.remap_round pairs tmp acc = Raise KeyError.
Proof.
  revert acc. induction pairs as [|[pid0 wid0] pairs IH]; intros acc; simpl.
  - left. by exists acc.
  - destruct (tmp !! wid0); [apply IH | by right].
Qed.

Lemma remap_rounds_missing (pairs : list (Z * Z)) (items : list (Z * gmap Z Q))
    (acc : gmap Z (gmap Z Q)) r t :
  (r, t) ∈ items →
  Training.remap_round pairs t ∅ = Raise KeyError →
  Training.remap_rounds pairs items acc = Raise KeyError.
Proof.
  revert acc. induction items as [|[r0 t0] items IH]; intros acc Hin Hfail.
  - by apply elem_of_nil in Hin.
  - simpl. destruct (remap_round_outcome pairs t0 ∅) as [[row Hrow]|Hrow];
      rewrite Hrow; [|done].
    apply elem_of_cons in Hin as [Heq|Hin]; [|by apply IH].
    injection Heq as -> ->. congruence.
Qed.

Lemma remap_rounds_total (pairs : list (Z * Z)) (items : list (Z * gmap Z Q))
    (acc : gmap Z (gmap Z Q)) :
  (∀ r t, (r, t) ∈ items → ∃ row, Training.remap_round pairs t ∅ = Return row) →
  ∃ out, Training.remap_rounds pairs items acc = Return out.
Proof.
  revert acc. induction items as [|[r0 t0] items IH]; intros acc Hall.
  - by exists acc.
  - simpl. destruct (Hall r0 t0) as [row ->]; [by left|].
    apply IH. intros r t Hin. apply (Hall r). by right.
Qed.

Lemma remap_entries_missing (pairs : list (Z * Z)) (items : list (string * stat))
    (acc : stats) (table : gmap Z (gmap Z Q)) :
  NoDup items.*1 →
  ("sv", SShapley table) ∈ items →
  Training.remap_rounds pairs (map_to_list table) ∅ = Raise KeyError →
  Training.remap_entries pairs items acc = Raise KeyError.
Proof.
  revert acc. induction items as [|[k0 v0] items IH]; intros acc Hnd Hin Hfail.
  - by apply elem_of_nil in Hin.
  - simpl in *. apply NoDup_cons in Hnd as [Hfresh Hnd].
    apply elem_of_cons in Hin as [Heq|Hin].
    + injection Heq as <- <-. rewrite decide_False by (intros Hne; by apply Hne).
      by rewrite Hfail.
    + destruct (decide (k0 ≠ "sv")) as [Hk0|Hk0]; [by apply IH|].
      apply dec_stable in Hk0. subst k0. destruct Hfresh.
      apply list_elem_of_fmap. by exists ("sv", SShapley table).
Qed.

Lemma remap_entries_total (pairs : list (Z * Z)) (items : list (string * stat))
    (acc : stats) :
  (∀ v, ("sv", v) ∈ items →
     ∃ table sv_dict,
       v = SShapley table
       ∧ Training.remap_rounds pairs (map_to_list table) ∅ = Return sv_dict) →
  ∃ out, Training.remap_entries pairs items acc = Return out.
Proof.
  revert acc. induction items as [|[k0 v0] items IH]; intros acc Hall.
  - by exists acc.
  - simpl. destruct (decide (k0 ≠ "sv")) as [Hk0|Hk0].
    + apply IH. intros v Hin. apply Hall. by right.
    + apply dec_stable in Hk0. subst k0.
      destruct (Hall v0) as (table & sv_dict & -> & ->); [by left|].
      apply IH. intros v Hin. apply Hall. by right.
Qed.

(** X24: a retrieval that fails loses the task.  When the units have
    finished, practitioner ids were given, and some round of the merged
    Shapley table lacks the value of a worker that the remapping reads,
    the call raises [KeyError]; the task has been taken out of the
    pending set and the pool stopped by then, so the call cannot be
    repeated. *)
Theorem failed_remap_loses_task (task_id : Z) (timeout : option Q) (tk : task) ids
    (table : gmap Z (gmap Z Q)) (round : Z) (t : gmap Z Q) (i : nat) (pid : Z) w :
  World.tasks w !! task_id = Some tk →
  ProcessPool.wait (process_pool tk) timeout = true →
  practitioner_ids tk = Some ids →
  Training.merge_results (ProcessPool.results (process_pool tk)) !! "sv"
    = Some (SShapley table) →
  table !! round = Some t →
  Training.sorted ids !! i = Some pid →
  Z.of_nat i < worker_number (config tk) →
  t !! Z.of_nat i = None →
  Training.get_training_result task_id timeout w
  = (Raise KeyError,
     World.mk (delete task_id (World.tasks w)) (World.effects w ++ [StopPool])).
Proof.
  intros Htk Hwait Hids Hsv Hround Hi Hlt Hnone.
  rewrite (get_training_result_pending _ _ tk) by done.
  rewrite Hwait. cbv zeta. rewrite Hids.
  rewrite (remap_entries_missing _ _ _ table); [done | | |].
  - apply NoDup_fst_map_to_list.
  - by apply elem_of_map_to_list.
  - apply (remap_rounds_missing _ _ _ round t); [by apply elem_of_map_to_list|].
    apply (remap_round_missing _ _ _ pid (Z.of_nat i)); [|done].
    apply elem_of_pairs. eauto.
Qed.

(** X25: the retrieval returns a result whenever the units have
    finished, practitioner ids were given, and the merged ["sv"] entry,
    if there is one, is a table that holds in every round the values of
    the workers [0 .. m-1], where [m] is the smaller of the number of
    practitioner ids and the worker number. *)
Theorem remap_succeeds (task_id : Z) (timeout : option Q) (tk : task) ids w :
  World.tasks w !! task_id = Some tk →
  ProcessPool.wait (process_pool tk) timeout = true →
  practitioner_ids tk = Some ids →
  (∀ v, Training.merge_results (ProcessPool.results (process_pool tk)) !! "sv"
        = Some v →
     ∃ table, v = SShapley table
       ∧ ∀ round t (i : nat), table !! round = Some t →
           (i < size ids)%nat → Z.of_nat i < worker_number (config tk) →
           is_Some (t !! Z.of_nat i)) →
  ∃ st, Training.get_training_result task_id timeout w
        = (Return (Some st),
           World.mk (delete task_id (World.tasks w))
                    (World.effects w ++ [StopPool])).
Proof.
  intros Htk Hwait Hids Hsv.
  rewrite (get_training_result_pending _ _ tk) by done.
  rewrite Hwait. cbv zeta. rewrite Hids.
  destruct (remap_entries_total
              (zip (Training.sorted ids) (seqZ 0 (worker_number (config tk))))
              (map_to_list
                 (Training.merge_results (ProcessPool.results (process_pool tk))))
              ∅) as [st ->]; [|by exists st].
  intros v Hin. apply elem_of_map_to_list in Hin.
  destruct (Hsv v Hin) as (table & -> & Hrows).
  destruct (remap_rounds_total
              (zip (Training.sorted ids) (seqZ 0 (worker_number (config tk))))
              (map_to_list table) ∅) as [sv_dict Hsv_dict]; [|eauto].
  intros r t Hr. apply elem_of_map_to_list in Hr.
  apply remap_round_total. intros pid wid Hp.
  apply elem_of_pairs in Hp as (i & Hi & -> & Hlt).
  apply (Hrows r t i); [done| |done].
  rewrite <- length_sorted. by eapply lookup_lt_Some.
Qed.

(** X26: a remapped round holds exactly as many values as the smaller
    of the number of practitioner ids and the worker number: practitioner
    ids beyond the worker number get no value, and the values of workers
    beyond the number of practitioner ids are left out. *)
Theorem remapped_round_size ids n (t row : gmap Z Q) :
  Training.remap_round (zip (Training.sorted ids) (seqZ 0 n)) t ∅ = Return row →
  size row = (size ids `min` Z.to_nat n)%nat.
Proof.
  intros Hrow.
  destruct (remap_round_spec _ _ _ _ (pairs_NoDup ids n) Hrow) as [Hout Hin].
  assert (Hdom : dom row = list_to_set (zip (Training.sorted ids) (seqZ 0 n)).*1).
  { apply set_eq. intros k. rewrite elem_of_dom, elem_of_list_to_set. split.
    - intros Hsome.
      destruct (decide (k ∈ (zip (Training.sorted ids) (seqZ 0 n)).*1)); [done|].
      rewrite Hout, lookup_empty in Hsome by done. by destruct Hsome.
    - intros Hk. apply list_elem_of_fmap in Hk as [[pid wid] [-> Hk]].
      destruct (Hin _ _ Hk) as [Hsome Heq]. simpl. by rewrite Heq. }
  rewrite <- size_dom, Hdom, size_list_to_set by apply pairs_NoDup.
  rewrite length_fmap, length_zip, length_sorted, length_seqZ. done.
Qed.

End RemapMore.

Section RoundTrips.
Implicit Types (w : World.t) (h : host) (cfg : DistributedTrainingConfig) (n : Z).

Lemma seqZ_sorted (m : Z) (k : nat) : StronglySorted Z.le (seqZ m (Z.of_nat k)).
Proof.
  induction k as [|k IH].
  - rewrite seqZ_nil by lia. constructor.
  - rewrite seqZ_S. apply StronglySorted_app_2; [|done|].
    + intros x1 x2 Hx1 Hx2. apply elem_of_seqZ in Hx1.
      apply list_elem_of_singleton in Hx2. lia.
    + repeat constructor.
Qed.

Lemma sorted_worker_ids n :
  Training.sorted (list_to_set (seqZ 0 n)) = seqZ 0 n.
Proof.
  apply (StronglySorted_unique Z.le).
  - apply sorted_facts.
  - destruct (decide (n ≤ 0)).
    + rewrite seqZ_nil by done. constructor.
    + replace n with (Z.of_nat (Z.to_nat n)) by lia. apply seqZ_sorted.
  - unfold Training.sorted. rewrite merge_sort_Permutation.
    apply elements_list_to_set, NoDup_seqZ.
Qed.

Lemma same_ids_round n (t : gmap Z Q) :
  dom t = list_to_set (seqZ 0 n) →
  Training.remap_round (zip (seqZ 0 n) (seqZ 0 n)) t ∅ = Return t.
Proof.
  intros Hdom.
  assert (Hpairs : ∀ pid wid, (pid, wid) ∈ zip (seqZ 0 n) (seqZ 0 n) →
                     pid = wid ∧ pid ∈ seqZ 0 n).
  { intros pid wid Hin.
    apply elem_of_lookup_zip_with in Hin as (i & x & y & Heq & Hx & Hy).
    injection Heq as -> ->. split; [congruence|].
    apply list_elem_of_lookup. eauto. }
  destruct (remap_round_total (zip (seqZ 0 n) (seqZ 0 n)) t ∅) as [row Hrow].
  { intros pid wid Hin. destruct (Hpairs _ _ Hin) as [<- Hmem].
    apply elem_of_dom. rewrite Hdom. by apply elem_of_list_to_set. }
  rewrite Hrow. f_equal.
  assert (Hnd : NoDup (zip (seqZ 0 n) (seqZ 0 n)).*1)
    by (rewrite fst_zip by done; apply NoDup_seqZ).
  destruct (remap_round_spec _ _ _ _ Hnd Hrow) as [Hout Hin].
  apply map_eq. intros k.
  destruct (decide (k ∈ (zip (seqZ 0 n) (seqZ 0 n)).*1)) as [Hk|Hk].
  - apply list_elem_of_fmap in Hk as [[pid wid] [-> Hk]].
    destruct (Hpairs _ _ Hk) as [<- _]. destruct (Hin _ _ Hk) as [_ Heq].
    simpl. exact Heq.
  - rewrite Hout, lookup_empty by done. symmetry.
    apply not_elem_of_dom. rewrite Hdom, elem_of_list_to_set.
    by rewrite fst_zip in Hk.
Qed.

Lemma same_ids_rounds n (table : gmap Z (gmap Z Q)) :
  (∀ round t, table !! round = Some t → dom t = list_to_set (seqZ 0 n)) →
  Training.remap_rounds (zip (seqZ 0 n) (seqZ 0 n)) (map_to_list table) ∅
  = Return table.
Proof.
  intros Hdom.
  destruct (remap_rounds_total (zip (seqZ 0 n) (seqZ 0 n)) (map_to_list table) ∅)
    as [out Hout].
  { intros r t Hin. apply elem_of_map_to_list in Hin.
    exists t. apply same_ids_round. by apply (Hdom r). }
  rewrite Hout. f_equal.
  destruct (remap_rounds_spec _ _ _ _ (NoDup_fst_map_to_list table) Hout)
    as [Hfresh Hin].
  apply map_eq. intros r. destruct (table !! r) as [t|] eqn:Hr.
  - destruct (Hin r t) as (row & Hrow & ->); [by apply elem_of_map_to_list|].
    rewrite same_ids_round in Hrow by (by apply (Hdom r)). congruence.
  - rewrite Hfresh, lookup_empty; [done|]. intros Hm.
    apply list_elem_of_fmap in Hm as [[r' t'] [-> Hm]].
    apply elem_of_map_to_list in Hm. simpl in *. congruence.
Qed.

End RoundTrips.

(* ===================================================================== *)
(** ** The remapping theorems on sample tasks *)
(* ===================================================================== *)

Lemma failed_remap_loses_task_witness :
  let table : gmap Z (gmap Z Q) := {[1 := {[0 := (1 # 10)%Q; 1 := (2 # 10)%Q]}]} in
  let t : gmap Z Q := {[0 := (1 # 10)%Q; 1 := (2 # 10)%Q]} in
  World.tasks OrchestrationSamples.short_world !! 42
    = Some OrchestrationSamples.short_task
  ∧ ProcessPool.wait (process_pool OrchestrationSamples.short_task) None = true
  ∧ practitioner_ids OrchestrationSamples.short_task = Some {[7; 3; 9]}
  ∧ Training.merge_results
      (ProcessPool.results (process_pool OrchestrationSamples.short_task)) !! "sv"
    = Some (SShapley table)
  ∧ table !! 1 = Some t
  ∧ Training.sorted {[7; 3; 9]} !! 2%nat = Some 9
  ∧ Z.of_nat 2 < worker_number (config OrchestrationSamples.short_task)
  ∧ t !! Z.of_nat 2 = None
  ∧ Training.get_training_result 42 None OrchestrationSamples.short_world
    = (Raise KeyError,
       World.mk (delete 42 (World.tasks OrchestrationSamples.short_world))
                (World.effects OrchestrationSamples.short_world ++ [StopPool])).
Proof.
  intros table t.
  assert (H1 : World.tasks OrchestrationSamples.short_world !! 42
    = Some OrchestrationSamples.short_task) by reflexivity.
  assert (H2 : ProcessPool.wait (process_pool OrchestrationSamples.short_task) None
    = true) by reflexivity.
  assert (H3 : practitioner_ids OrchestrationSamples.short_task = Some {[7; 3; 9]})
    by reflexivity.
  assert (H4 : Training.merge_results
      (ProcessPool.results (process_pool OrchestrationSamples.short_task)) !! "sv"
    = Some (SShapley table)) by (vm_compute; reflexivity).
  assert (H5 : table !! 1 = Some t) by reflexivity.
  assert (H6 : Training.sorted {[7; 3; 9]} !! 2%nat = Some 9)
    by (vm_compute; reflexivity).
  assert (H7 : Z.of_nat 2 < worker_number (config OrchestrationSamples.short_task))
    by (simpl; lia).
  assert (H8 : t !! Z.of_nat 2 = None) by reflexivity.
  split_and!; try assumption.
  exact (failed_remap_loses_task 42 None OrchestrationSamples.short_task
           {[7; 3; 9]} table 1 t 2%nat 9 OrchestrationSamples.short_world
           H1 H2 H3 H4 H5 H6 H7 H8).
Defined.

Lemma remapped_round_size_witness :
  let t : gmap Z Q := {[0 := (1 # 10)%Q; 1 := (2 # 10)%Q; 2 := (3 # 10)%Q]} in
  let row : gmap Z Q := {[3 := (1 # 10)%Q; 7 := (2 # 10)%Q]} in
  let ids : gset Z := {[7; 3; 9]} in
  Training.remap_round (zip (Training.sorted ids) (seqZ 0 2)) t ∅ = Return row
  ∧ size row = (size ids `min` Z.to_nat 2)%nat.
Proof.
  intros t row ids.
  assert (H1 : Training.remap_round
                 (zip (Training.sorted {[7; 3; 9]}) (seqZ 0 2)) t ∅ = Return row)
    by (vm_compute; reflexivity).
  split; [exact H1|].
  exact (remapped_round_size {[7; 3; 9]} 2 t row H1).
Defined.

Section RoundTripsMore.
Implicit Types (w : World.t) (h : host) (cfg : DistributedTrainingConfig) (n : Z).

(** X27: when the practitioner ids are the worker ids [0 .. N-1]
    themselves and every round of the Shapley table holds exactly the
    values of these workers, the remapping changes nothing: the retrieval
    returns the merged statistics as they are. *)
Theorem same_ids_remap_is_identity (task_id : Z) (timeout : option Q) (tk : task) w :
  World.tasks w !! task_id = Some tk →
  ProcessPool.wait (process_pool tk) timeout = true →
  practitioner_ids tk = Some (list_to_set (seqZ 0 (worker_number (config tk)))) →
  (∀ v, Training.merge_results (ProcessPool.results (process_pool tk)) !! "sv"
        = Some v →
     ∃ table, v = SShapley table
       ∧ ∀ round t, table !! round = Some t →
           dom t = list_to_set (seqZ 0 (worker_number (config tk)))) →
  Training.get_training_result task_id timeout w
  = (Return (Some (Training.merge_results (ProcessPool.results (process_pool tk)))),
     World.mk (delete task_id (World.tasks w)) (World.effects w ++ [StopPool])).
Proof.
  intros Htk Hwait Hids Hsv.
  rewrite (get_training_result_pending _ _ tk) by done.
  rewrite Hwait. cbv zeta. rewrite Hids, sorted_worker_ids.
  set (n := worker_number (config tk)) in *.
  set (tmp_stats := Training.merge_results _) in *.
  destruct (remap_entries_total (zip (seqZ 0 n) (seqZ 0 n))
              (map_to_list tmp_stats) ∅) as [st Hst].
  { intros v Hin. apply elem_of_map_to_list in Hin.
    destruct (Hsv v Hin) as (table & -> & Hdom).
    exists table, table. split; [done|]. by apply same_ids_rounds. }
  rewrite Hst. do 3 f_equal.
  apply map_eq. intros k.
  pose proof (remap_entries_lookup _ _ _ Hst k) as Hk.
  destruct (tmp_stats !! k) as [v|] eqn:Hv; [|done].
  destruct (decide (k ≠ "sv")) as [Hne|He]; [done|].
  apply dec_stable in He. subst k.
  destruct Hk as (table & sv_dict & -> & Hrounds & ->).
  destruct (Hsv _ Hv) as (table' & Heq & Hdom). injection Heq as <-.
  rewrite same_ids_rounds in Hrounds by done. congruence.
Qed.

Lemma scheduled_keeps (wc : worker_config) (pool : ProcessPool.t) :
  ProcessPool.wait (scheduled wc pool) = ProcessPool.wait pool
  ∧ ProcessPool.results (scheduled wc pool) = ProcessPool.results pool.
Proof.
  unfold scheduled. generalize (worker_map wc) as wm. intros wm.
  revert pool. induction wm as [|u wm IH]; intros pool; [done|].
  simpl. destruct (IH (ProcessPool.exec u.1
                         (bool_decide (u.1 = 0) && server_config wc) pool))
    as [-> ->]. done.
Qed.

Lemma train_non_blocking_run h cfg (ids : option (gset Z)) w :
  limit_too_low h = false →
  Training.train h cfg true ids w
  = (Return (Some (uuid4 h)),
     World.mk
       (<[uuid4 h := {| process_pool :=
                          scheduled (get_worker_config h cfg ids) (new_pool h);
                        practitioner_ids := ids;
                        config := cfg |}]> (World.tasks w))
       (World.effects w ++ start_effects (get_worker_config h cfg ids))).
Proof.
  intros Hlimit. unfold Training.train.
  assert (Hcheck : (match sysconf h with
                    | Some value =>
                        if bool_decide (value ≤ 1024)
                        then raise RuntimeError else ret tt
                    | None => ret tt
                    end : M World.t unit) = ret tt).
  { unfold limit_too_low in Hlimit. destruct (sysconf h); [|done].
    by rewrite Hlimit. }
  rewrite Hcheck. unfold bind at 1. unfold ret at 1.
  unfold bind at 1 2 3 4 5 6. unfold World.act, modify.
  cbv beta iota. unfold bind at 1. rewrite exec_all_run. cbv beta iota.
  unfold scheduled, start_effects. simpl.
  unfold bind, World.set_tasks, modify, ret. simpl.
  repeat rewrite <- app_assoc. reflexivity.
Qed.

(** X28: starting a task without blocking and retrieving it go
    together: on a host that accepts the start, with a task identifier
    not pending yet and a pool whose units finish in time, [train]
    returns the identifier, and [get_training_result] for it returns the
    merged results of the pool's units and leaves the pending set as it
    was before the start. *)
Theorem start_then_retrieve h cfg (timeout : option Q) w :
  limit_too_low h = false →
  World.tasks w !! uuid4 h = None →
  ProcessPool.wait (new_pool h) timeout = true →
  (Training.train h cfg true None w).1 = Return (Some (uuid4 h))
  ∧ (Training.get_training_result (uuid4 h) timeout
       (Training.train h cfg true None w).2).1
    = Return (Some (Training.merge_results (ProcessPool.results (new_pool h))))
  ∧ World.tasks
      (Training.get_training_result (uuid4 h) timeout
         (Training.train h cfg true None w).2).2
    = World.tasks w.
Proof.
  intros Hlimit Hfresh Hwait.
  rewrite train_non_blocking_run by done. simpl.
  set (wc := get_worker_config h cfg None).
  destruct (scheduled_keeps wc (new_pool h)) as [Hw Hr].
  erewrite get_training_result_pending by apply lookup_insert_eq.
  simpl. rewrite Hw, Hwait, Hr. simpl.
  split_and!; [done | done |]. by apply delete_insert_id.
Qed.

End RoundTripsMore.

Lemma sample_table_complete (ids : gset Z) (n : Z) (tk : task) :
  process_pool tk = Samples.pool →
  n ≤ 3 →
  ∀ v, Training.merge_results (ProcessPool.results (process_pool tk)) !! "sv"
       = Some v →
    ∃ table, v = SShapley table
      ∧ ∀ round t (i : nat), table !! round = Some t →
          (i < size ids)%nat → Z.of_nat i < n →
          is_Some (t !! Z.of_nat i).
Proof.
  intros Hpool Hn v Hv. rewrite Hpool in Hv.
  assert (Hm : Training.merge_results (ProcessPool.results Samples.pool) !! "sv"
    = Some (SShapley {[1 := {[0 := (1 # 10)%Q; 1 := (2 # 10)%Q;
                             2 := (3 # 10)%Q]}]}))
    by (vm_compute; reflexivity).
  rewrite Hm in Hv. injection Hv as <-. eexists. split; [reflexivity|].
  intros round t i Ht _ Hlt. apply lookup_singleton_Some in Ht as [<- <-].
  destruct i as [|[|[|i]]]; [by eexists | by eexists | by eexists | lia].
Qed.

Lemma remap_succeeds_witness :
  let ids : gset Z := {[7; 3; 9]} in
  World.tasks Samples.world !! 42 = Some Samples.pending
  ∧ ProcessPool.wait (process_pool Samples.pending) None = true
  ∧ practitioner_ids Samples.pending = Some {[7; 3; 9]}
  ∧ (∀ v, Training.merge_results
            (ProcessPool.results (process_pool Samples.pending)) !! "sv" = Some v →
       ∃ table, v = SShapley table
         ∧ ∀ round t (i : nat), table !! round = Some t →
             (i < size ids)%nat →
             Z.of_nat i < worker_number (config Samples.pending) →
             is_Some (t !! Z.of_nat i))
  ∧ ∃ st, Training.get_training_result 42 None Samples.world
          = (Return (Some st),
             World.mk (delete 42 (World.tasks Samples.world))
                      (World.effects Samples.world ++ [StopPool])).
Proof.
  intros ids.
  assert (H1 : World.tasks Samples.world !! 42 = Some Samples.pending)
    by reflexivity.
  assert (H2 : ProcessPool.wait (process_pool Samples.pending) None = true)
    by reflexivity.
  assert (H3 : practitioner_ids Samples.pending = Some {[7; 3; 9]}) by reflexivity.
  pose proof (sample_table_complete ids
                (worker_number (config Samples.pending)) Samples.pending
                eq_refl ltac:(simpl; lia)) as H4.
  split_and!; [exact H1 | exact H2 | exact H3 | exact H4 |].
  exact (remap_succeeds 42 None Samples.pending ids Samples.world
           H1 H2 H3 H4).
Defined.

Lemma same_ids_remap_is_identity_witness :
  let tk := OrchestrationSamples.same_ids_task in
  let w := OrchestrationSamples.same_ids_world in
  World.tasks w !! 42 = Some tk
  ∧ ProcessPool.wait (process_pool tk) None = true
  ∧ practitioner_ids tk = Some (list_to_set (seqZ 0 (worker_number (config tk))))
  ∧ (∀ v, Training.merge_results (ProcessPool.results (process_pool tk)) !! "sv"
          = Some v →
       ∃ table, v = SShapley table
         ∧ ∀ round t, table !! round = Some t →
             dom t = list_to_set (seqZ 0 (worker_number (config tk))))
  ∧ Training.get_training_result 42 None w
    = (Return (Some (Training.merge_results
                       (ProcessPool.results (process_pool tk)))),
       World.mk (delete 42 (World.tasks w)) (World.effects w ++ [StopPool])).
Proof.
  intros tk w.
  assert (H1 : World.tasks w !! 42 = Some tk) by reflexivity.
  assert (H2 : ProcessPool.wait (process_pool tk) None = true) by reflexivity.
  assert (H3 : practitioner_ids tk
               = Some (list_to_set (seqZ 0 (worker_number (config tk)))))
    by (vm_compute; reflexivity).
  assert (H4 : ∀ v, Training.merge_results
                      (ProcessPool.results (process_pool tk)) !! "sv" = Some v →
       ∃ table, v = SShapley table
         ∧ ∀ round t, table !! round = Some t →
             dom t = list_to_set (seqZ 0 (worker_number (config tk)))).
  { intros v Hv.
    assert (Hm : Training.merge_results (ProcessPool.results (process_pool tk))
                   !! "sv"
      = Some (SShapley {[1 := {[0 := (1 # 10)%Q; 1 := (2 # 10)%Q;
                               2 := (3 # 10)%Q]}]}))
      by (vm_compute; reflexivity).
    rewrite Hm in Hv. injection Hv as <-. eexists. split; [reflexivity|].
    intros round t Ht. apply lookup_singleton_Some in Ht as [<- <-].
    vm_compute. reflexivity. }
  split_and!; [exact H1 | exact H2 | exact H3 | exact H4 |].
  exact (same_ids_remap_is_identity 42 None tk w H1 H2 H3 H4).
Defined.

Lemma start_then_retrieve_witness :
  let h := Samples.machine (Some 4096) in
  let cfg := {| worker_number := 3; log_file := "log" |} in
  let w := World.mk ∅ [] in
  limit_too_low h = false
  ∧ World.tasks w !! uuid4 h = None
  ∧ ProcessPool.wait (new_pool h) None = true
  ∧ (Training.train h cfg true None w).1 = Return (Some (uuid4 h))
  ∧ (Training.get_training_result (uuid4 h) None
       (Training.train h cfg true None w).2).1
    = Return (Some (Training.merge_results (ProcessPool.results (new_pool h))))
  ∧ World.tasks
      (Training.get_training_result (uuid4 h) None
         (Training.train h cfg true None w).2).2
    = World.tasks w.
Proof.
  intros h cfg w.
  assert (H1 : limit_too_low h = false) by reflexivity.
  assert (H2 : World.tasks w !! uuid4 h = None) by reflexivity.
  assert (H3 : ProcessPool.wait (new_pool h) None = true) by reflexivity.
  split_and!; [exact H1 | exact H2 | exact H3 | ..];
    destruct (start_then_retrieve h cfg None w H1 H2 H3) as (Ha & Hb & Hc);
    [exact Ha | exact Hb | exact Hc].
Defined.
